(** * Couchbase test container: readiness polling and bootstrap sequencing

    A shallow embedding of
    [modules/couchbase/testcontainers/couchbase/__init__.py]
    (class [CouchbaseContainer]) and the properties its specification
    states about it.

    The Python methods run against three outside parties: the container
    runtime, the management HTTP endpoint of the server and the Couchbase
    SDK.  They are gathered in the class [Runtime]; every method of
    [CouchbaseContainer] becomes a program in a state-and-exception monad
    over a runtime, and every interaction is recorded in a trace. *)

From Stdlib Require Import ZArith String Ascii List Lia.
From stdpp Require Import base option list gmap strings pretty.

Local Open Scope string_scope.
Local Open Scope list_scope.
Local Open Scope Z_scope.

(** ** Data *)

(** Values of the fields of a form-encoded body ([data=...]): the source
    uses Python strings and ints. *)
Inductive PyVal :=
  | PStr (s : string)
  | PInt (n : Z).

Inductive Method := GET | POST.

(** [auth=None] (the default), or basic authentication.  The source spells
    basic authentication [HTTPBasicAuth(u, p)] in the POSTs and as the tuple
    [(u, p)] in [list_buckets]; [requests] treats both alike. *)
Inductive Auth :=
  | NoAuth
  | BasicAuth (user pass : string).

Record Request := mkRequest {
  meth : Method;
  url : string;
  data : list (string * PyVal);
  auth : Auth
}.

Record Response := mkResponse {
  status_code : Z;
  text : string
}.

(** The exceptions that take part. *)
Inductive Exc :=
  | RuntimeError (detail : string)
  | ConnectionError               (* requests.exceptions.ConnectionError *)
  | TimeoutError                  (* builtin, raised by the core waiters *)
  | OSConnectionError             (* builtin ConnectionError and subclasses *)
  | JSONDecodeError               (* raised by response.json() *)
  | UnAmbiguousTimeoutException   (* raised by Cluster.wait_until_ready *)
  | OtherError (what : string).   (* any other exception of a collaborator *)

#[global] Instance PyVal_eq_dec : EqDecision PyVal.
Proof. solve_decision. Defined.
#[global] Instance Method_eq_dec : EqDecision Method.
Proof. solve_decision. Defined.
#[global] Instance Auth_eq_dec : EqDecision Auth.
Proof. solve_decision. Defined.
#[global] Instance Request_eq_dec : EqDecision Request.
Proof. solve_decision. Defined.
#[global] Instance Response_eq_dec : EqDecision Response.
Proof. solve_decision. Defined.
#[global] Instance Exc_eq_dec : EqDecision Exc.
Proof. solve_decision. Defined.

(** What a call of [requests.get] / [requests.post] comes back with: an
    exception, or a response. *)
Definition Outcome : Type := Exc + Response.

(** [200 <= response.status_code < 300] *)
Definition is_2xx (r : Response) : bool :=
  (200 <=? status_code r) && (status_code r <? 300).

(** The instance attributes of a [CouchbaseContainer]. *)
Record Container := mkContainer {
  image : string;
  username : string;
  password : string;
  bucket : string;
  scope : string;
  collection : string;
  env : gmap string string;
  exposed : gset Z;
  bindings : gmap Z Z
}.

(** [TLSVerifyMode] of the SDK; the source only uses [NONE]. *)
Inductive TLSVerifyMode := TLS_NONE | TLS_PEER.

Record ClusterOptions := mkClusterOptions {
  authenticator : string * string;   (* PasswordAuthenticator(u, p) *)
  kv_timeout : Z;                    (* seconds *)
  enable_tcp_keep_alive : bool;
  tls_verify : TLSVerifyMode
}.

(** A [Cluster] object; [cluster_id] is the identity of the Python object. *)
Record Cluster := mkCluster {
  cluster_id : nat;
  connstr : string;
  options : ClusterOptions
}.

Inductive Event :=
  | EvSleep (secs : Z)
  | EvLogs (marker : string) (res : option Exc)
  | EvStart (c : Container) (res : option Exc)
  | EvHttp (rq : Request) (out : Outcome)
  | EvCluster (c : Cluster) (res : option Exc)
  | EvWaitReady (id : nat) (secs : Z) (res : option Exc).

(** ** The constructor *)

(** Python's [a or b] for an [Optional[str]] [a] and a string [b]: [a]
    when it is truthy, that is neither [None] nor the empty string. *)
Definition py_or (a : option string) (b : string) : string :=
  match a with
  | Some s => if decide (s = "") then b else s
  | None => b
  end.

(** [os.environ.get(key, dflt)] *)
Definition environ_get (environ : gmap string string) (key dflt : string)
  : string :=
  default dflt (environ !! key).

(** The list literal of lines 57-76. *)
Definition default_ports : list Z :=
  [8091; 8092; 8093; 8094; 8095; 8096; 8097; 9123; 11207; 11210; 11280;
   18091; 18092; 18093; 18094; 18095; 18096; 18097].

(** Modelled from the spec: [with_exposed_ports], [with_bind_ports] and
    [with_env] belong to the container class of [testcontainers.core], which
    is not part of the sources at hand.  Section 6 of the specification
    gives the container runtime contract as
    [start(image, exposed_ports, bound_ports, env_vars)]: a container holds
    a set of exposed ports, a binding of container ports to host ports and
    its environment variables, and each of the three methods adds to one of
    them. *)
Definition with_exposed_ports (port : Z) (c : Container) : Container :=
  {| image := image c; username := username c; password := password c;
     bucket := bucket c; scope := scope c; collection := collection c;
     env := env c; exposed := {[port]} ∪ exposed c; bindings := bindings c |}.

Definition with_bind_ports (container host : Z) (c : Container) : Container :=
  {| image := image c; username := username c; password := password c;
     bucket := bucket c; scope := scope c; collection := collection c;
     env := env c; exposed := exposed c;
     bindings := <[container := host]> (bindings c) |}.

Definition with_env (key value : string) (c : Container) : Container :=
  {| image := image c; username := username c; password := password c;
     bucket := bucket c; scope := scope c; collection := collection c;
     env := <[key := value]> (env c); exposed := exposed c;
     bindings := bindings c |}.

(** [CouchbaseContainer.__init__], called without extra keyword arguments
    ([kwargs] empty, for which line 48 does nothing).  [environ] is
    [os.environ] at the time of the call. *)
Definition __init__ (environ : gmap string string)
    (image_ : string) (ports : option (list Z))
    (username_ password_ bucket_ scope_ collection_ : option string)
  : Container :=
  let self :=
    {| image := image_;
       username := py_or username_
                     (environ_get environ "COUCHBASE_USERNAME" "Administrator");
       password := py_or password_
                     (environ_get environ "COUCHBASE_PASSWORD" "password");
       bucket := py_or bucket_
                     (environ_get environ "COUCHBASE_BUCKET" "default");
       scope := py_or scope_
                     (environ_get environ "COUCHBASE_SCOPE" "default");
       collection := py_or collection_
                     (environ_get environ "COUCHBASE_COLLECTION" "default");
       env := ∅; exposed := ∅; bindings := ∅ |} in
  let ports :=
    match ports with
    | None => default_ports
    | Some l => if decide (length l = 0%nat) then default_ports else l
    end in
  foldl (fun self port => with_bind_ports port port (with_exposed_ports port self))
        self ports.

(** One round of the loop of lines 78-80. *)
Definition add_port (c : Container) (port : Z) : Container :=
  with_bind_ports port port (with_exposed_ports port c).

(** ** The outside world *)

(** The collaborators of the class: the container runtime, the HTTP client
    talking to the management endpoint, the clock and the SDK.  [W] is the
    state of the outside world; every call may change it. *)
Class Runtime (W : Type) := {
  (** [requests.get] / [requests.post] *)
  http_send : W -> Request -> Outcome * W;
  (** [time.sleep] *)
  sleep_for : W -> Z -> W;
  (** [wait_for_logs(container, marker)]: returns, or raises *)
  wait_for_logs : W -> string -> option Exc * W;
  (** the [start] of the base class: hands the container to the runtime *)
  runtime_start : W -> Container -> option Exc * W;
  (** [get_container_host_ip()] and [get_exposed_port(port)] *)
  get_container_host_ip : string;
  get_exposed_port : Z -> Z;
  (** [Cluster(connstr, options)] of the SDK: the constructor connects,
      and returns or raises *)
  cluster_connect : W -> string -> ClusterOptions -> option Exc * W;
  (** [Cluster.wait_until_ready(timeout)] *)
  wait_until_ready : W -> Cluster -> Z -> option Exc * W;
  (** [response.json()] on the body of a response *)
  Json : Type;
  json_loads : string -> option Json;
  (** retry settings of [testcontainers.core] *)
  max_tries : nat;
  sleep_time : Z
}.

(** ** Programs *)

(** The result of running a method: it returns, raises, or is still running
    when the fuel given to its loops is used up. *)
Inductive Res (A : Type) :=
  | Ret (a : A)
  | Raise (e : Exc)
  | Running.
Arguments Ret {A} a.
Arguments Raise {A} e.
Arguments Running {A}.

Record State (W : Type) := mkState {
  world : W;
  self : Container;
  trace : list Event;
  next_id : nat
}.
Arguments mkState {W}.
Arguments world {W}.
Arguments self {W}.
Arguments trace {W}.
Arguments next_id {W}.

Definition Prog (W A : Type) : Type := State W -> Res A * State W.

#[global] Instance Prog_ret {W} : MRet (Prog W) := fun A a s => (Ret a, s).

#[global] Instance Prog_bind {W} : MBind (Prog W) := fun A B k m s =>
  match m s with
  | (Ret a, s') => k a s'
  | (Raise e, s') => (Raise e, s')
  | (Running, s') => (Running, s')
  end.

Section Programs.
Context {W : Type} `{RT : Runtime W}.

Definition raise {A} (e : Exc) : Prog W A := fun s => (Raise e, s).

Definition running {A} : Prog W A := fun s => (Running, s).

(** [try: body except exc: handler], for the exceptions [catches] picks *)
Definition try_except {A} (body : Prog W A) (catches : Exc -> bool)
    (handler : Prog W A) : Prog W A := fun s =>
  match body s with
  | (Raise e, s') => if catches e then handler s' else (Raise e, s')
  | r => r
  end.

Definition log (e : Event) (s : State W) : State W :=
  mkState (world s) (self s) (trace s ++ [e]) (next_id s).

Definition get_self : Prog W Container := fun s => (Ret (self s), s).

Definition modify_self (f : Container -> Container) : Prog W unit := fun s =>
  (Ret tt, mkState (world s) (f (self s)) (trace s) (next_id s)).

(** [sleep(secs)] *)
Definition sleep (secs : Z) : Prog W unit := fun s =>
  (Ret tt, log (EvSleep secs)
             (mkState (sleep_for (world s) secs) (self s) (trace s) (next_id s))).

(** A call of [requests]: the response is returned, an exception raised. *)
Definition request (rq : Request) : Prog W Response := fun s =>
  let '(out, w) := http_send (world s) rq in
  let s' := log (EvHttp rq out) (mkState w (self s) (trace s) (next_id s)) in
  match out with
  | inr resp => (Ret resp, s')
  | inl e => (Raise e, s')
  end.

Definition requests_get (url_ : string) (auth_ : Auth) : Prog W Response :=
  request (mkRequest GET url_ [] auth_).

Definition requests_post (url_ : string) (data_ : list (string * PyVal))
    (auth_ : Auth) : Prog W Response :=
  request (mkRequest POST url_ data_ auth_).
End Programs.

(** ** Python string helpers *)

(** [str(b)] for a bool *)
Definition py_str_bool (b : bool) : string :=
  if b then "True" else "False".

Definition lower_ascii (c : ascii) : ascii :=
  let n := nat_of_ascii c in
  if (65 <=? n)%nat && (n <=? 90)%nat then ascii_of_nat (n + 32) else c.

(** [s.lower()], on ASCII text *)
Fixpoint py_lower (s : string) : string :=
  match s with
  | EmptyString => EmptyString
  | String c rest => String (lower_ascii c) (py_lower rest)
  end.

(** ** The methods of [CouchbaseContainer] *)

Section Methods.
Context {W : Type} `{RT : Runtime W}.

(** Modelled from the spec: the start of the base class
    ([testcontainers.core], not part of the sources at hand).  Section 6
    of the specification: the runtime is handed the image, the ports and
    the environment of the container and starts it. *)
Definition super_start : Prog W unit := fun s =>
  let '(res, w) := runtime_start (world s) (self s) in
  let s' := log (EvStart (self s) res)
                (mkState w (self s) (trace s) (next_id s)) in
  match res with
  | None => (Ret tt, s')
  | Some e => (Raise e, s')
  end.

(** Modelled from the spec: [wait_for_logs] of [testcontainers.core]
    (not part of the sources at hand); section 4.1 of the specification:
    wait for a marker substring in the log stream of the service, bounded
    by a timeout that the caller manages. *)
Definition do_wait_for_logs (marker : string) : Prog W unit := fun s =>
  let '(res, w) := wait_for_logs (world s) marker in
  let s' := log (EvLogs marker res)
                (mkState w (self s) (trace s) (next_id s)) in
  match res with
  | None => (Ret tt, s')
  | Some e => (Raise e, s')
  end.

(** The exceptions after which the waiting decorator tries again: the
    builtin [TimeoutError] and the builtin [ConnectionError] with its
    subclasses.  [requests.exceptions.ConnectionError] is not one of
    them. *)
Definition transient (e : Exc) : bool :=
  match e with
  | TimeoutError => true
  | OSConnectionError => true
  | _ => false
  end.

(** Modelled from the spec: the decorator [wait_container_is_ready] of
    [testcontainers.core] (not part of the sources at hand).  Sections 4.1
    and 7 of the specification: the poller itself enforces no bound, a
    bound on the readiness wait is imposed from outside it.  The decorator
    is the retry wrapper of the core package: it calls the wrapped method,
    and when that raises a transient exception (see [transient]) it sleeps
    [sleep_time] and calls it again, at most [max_tries] times in all; then
    it raises [TimeoutError].  It has no means to interrupt a call that
    does not come back. *)
Fixpoint wait_container_is_ready {A} (tries : nat) (wrapped : Prog W A)
  : Prog W A :=
  match tries with
  | O => raise TimeoutError
  | S tries' =>
      try_except wrapped transient
        (sleep sleep_time ;; wait_container_is_ready tries' wrapped)
  end.

(** The [while True] loop of [_connect] (lines 85-95); [fuel] bounds the
    number of iterations that are run. *)
Fixpoint poll (fuel : nat) : Prog W unit :=
  match fuel with
  | O => running
  | S fuel' =>
      sleep 1 ;;
      done ← try_except
        (let url_ := "http://" +:+ get_container_host_ip +:+ ":"
                     +:+ pretty (get_exposed_port 8091) +:+ "/settings/web" in
         response ← requests_get url_ NoAuth;
         if is_2xx response then mret true else mret false)
        (fun e => bool_decide (e = ConnectionError))
        (mret false);
      if done : bool then mret tt else poll fuel'
  end.

(** The body of [_connect] (lines 83-95), before decoration. *)
Definition _connect_wrapped (fuel : nat) : Prog W unit :=
  do_wait_for_logs "and logs available in" ;;
  poll fuel.

(** [_connect], as decorated on line 82. *)
Definition _connect (fuel : nat) : Prog W unit :=
  wait_container_is_ready max_tries (_connect_wrapped fuel).

Definition _configure : Prog W unit :=
  self_ ← get_self;
  modify_self (with_env "COUCHBASE_USERNAME" (username self_)) ;;
  modify_self (with_env "COUCHBASE_PASSWORD" (password self_)) ;;
  modify_self (with_env "COUCHBASE_BUCKET" (bucket self_)).

Definition set_admin_credentials : Prog W unit :=
  self_ ← get_self;
  let url_ := "http://" +:+ get_container_host_ip +:+ ":"
              +:+ pretty (get_exposed_port 8091) +:+ "/settings/web" in
  let data_ := [("username", PStr (username self_));
                ("password", PStr (password self_));
                ("port", PStr "SAME")] in
  response ← requests_post url_ data_ NoAuth;
  if is_2xx response then mret tt
  else raise (RuntimeError (text response)).

Definition _create_bucket : Prog W unit :=
  self_ ← get_self;
  let url_ := "http://" +:+ get_container_host_ip +:+ ":"
              +:+ pretty (get_exposed_port 8091) +:+ "/pools/default/buckets" in
  let data_ := [("name", PStr (bucket self_));
                ("bucketType", PStr "couchbase");
                ("ramQuotaMB", PInt 256)] in
  response ← requests_post url_ data_
               (BasicAuth (username self_) (password self_));
  if is_2xx response then mret tt
  else raise (RuntimeError (text response)).

Definition _create_scope : Prog W unit :=
  self_ ← get_self;
  let url_ := "http://" +:+ get_container_host_ip +:+ ":"
              +:+ pretty (get_exposed_port 8091) +:+ "/pools/default/buckets/"
              +:+ bucket self_ +:+ "/scopes" in
  let data_ := [("name", PStr (scope self_))] in
  response ← requests_post url_ data_
               (BasicAuth (username self_) (password self_));
  if is_2xx response then mret tt
  else raise (RuntimeError (text response)).

Definition _create_collection : Prog W unit :=
  self_ ← get_self;
  let url_ := "http://" +:+ get_container_host_ip +:+ ":"
              +:+ pretty (get_exposed_port 8091) +:+ "/pools/default/buckets/"
              +:+ bucket self_ +:+ "/scopes/" +:+ scope self_
              +:+ "/collections" in
  let data_ := [("name", PStr (collection self_));
                ("maxTTL", PInt 3600);
                ("history", PStr (py_lower (py_str_bool false)))] in
  response ← requests_post url_ data_
               (BasicAuth (username self_) (password self_));
  if is_2xx response then mret tt
  else raise (RuntimeError (text response)).

Definition start (fuel : nat) : Prog W Container :=
  _configure ;;
  super_start ;;
  _connect fuel ;;
  set_admin_credentials ;;
  _create_bucket ;;
  _create_scope ;;
  _create_collection ;;
  get_self.

Definition get_connection_url : string :=
  "couchbases://" +:+ get_container_host_ip.

(** [Cluster(connstr, options)]: a new object each time.  The constructor
    of the SDK connects to the cluster; when it raises, the exception goes
    to the caller and there is no object to go on with. *)
Definition new_cluster (connstr_ : string) (options_ : ClusterOptions)
  : Prog W Cluster := fun s =>
  let c := mkCluster (next_id s) connstr_ options_ in
  let '(res, w) := cluster_connect (world s) connstr_ options_ in
  let s' := log (EvCluster c res)
                (mkState w (self s) (trace s) (S (next_id s))) in
  match res with
  | None => (Ret c, s')
  | Some e => (Raise e, s')
  end.

(** [cluster.wait_until_ready(timedelta(seconds=secs))] *)
Definition cluster_wait_until_ready (c : Cluster) (secs : Z) : Prog W unit :=
  fun s =>
  let '(res, w) := wait_until_ready (world s) c secs in
  let s' := log (EvWaitReady (cluster_id c) secs res)
                (mkState w (self s) (trace s) (next_id s)) in
  match res with
  | None => (Ret tt, s')
  | Some e => (Raise e, s')
  end.

Definition client : Prog W Cluster :=
  self_ ← get_self;
  let auth_ := (username self_, password self_) in
  let options_ := mkClusterOptions auth_ 10 true TLS_NONE in
  cluster ← new_cluster get_connection_url options_;
  cluster_wait_until_ready cluster 15 ;;
  mret cluster.

(** [response.json()] *)
Definition response_json (r : Response) : Prog W Json :=
  match json_loads (text r) with
  | Some j => mret j
  | None => raise JSONDecodeError
  end.

Definition list_buckets : Prog W Json :=
  self_ ← get_self;
  let url_ := "http://" +:+ get_container_host_ip +:+ ":"
              +:+ pretty (get_exposed_port 8091) +:+ "/pools/default/buckets" in
  let auth_ := BasicAuth (username self_) (password self_) in
  response ← requests_get url_ auth_;
  if is_2xx response then response_json response
  else raise (RuntimeError (text response)).
End Methods.

(** ** Reading traces *)

Definition is_post (e : Event) : bool :=
  match e with
  | EvHttp rq _ => bool_decide (meth rq = POST)
  | _ => false
  end.

(** The call came back with a 2xx response. *)
Definition ok (o : Outcome) : bool :=
  match o with
  | inr r => is_2xx r
  | inl _ => false
  end.

(** The outcomes after which the readiness loop goes round again: a response
    that is not 2xx, and a connection error. *)
Definition retried (o : Outcome) : bool :=
  match o with
  | inr r => negb (is_2xx r)
  | inl e => bool_decide (e = ConnectionError)
  end.

Definition is_Ret {A} (r : Res A) : bool :=
  match r with
  | Ret _ => true
  | _ => false
  end.

(** ** The bootstrap requests *)

Section Requests.
Context {W : Type} `{RT : Runtime W}.

Definition management (path : string) : string :=
  "http://" +:+ get_container_host_ip +:+ ":"
  +:+ pretty (get_exposed_port 8091) +:+ path.

(** The requests that the four bootstrap methods send for a container. *)
Definition credentials_request (c : Container) : Request :=
  mkRequest POST (management "/settings/web")
    [("username", PStr (username c)); ("password", PStr (password c));
     ("port", PStr "SAME")]
    NoAuth.

Definition bucket_request (c : Container) : Request :=
  mkRequest POST (management "/pools/default/buckets")
    [("name", PStr (bucket c)); ("bucketType", PStr "couchbase");
     ("ramQuotaMB", PInt 256)]
    (BasicAuth (username c) (password c)).

Definition scope_request (c : Container) : Request :=
  mkRequest POST
    (management ("/pools/default/buckets/" +:+ bucket c +:+ "/scopes"))
    [("name", PStr (scope c))]
    (BasicAuth (username c) (password c)).

Definition collection_request (c : Container) : Request :=
  mkRequest POST
    (management ("/pools/default/buckets/" +:+ bucket c +:+ "/scopes/"
                 +:+ scope c +:+ "/collections"))
    [("name", PStr (collection c)); ("maxTTL", PInt 3600);
     ("history", PStr "false")]
    (BasicAuth (username c) (password c)).

Definition bootstrap_requests (c : Container) : list Request :=
  [credentials_request c; bucket_request c; scope_request c;
   collection_request c].

(** Send [rq]; return on a 2xx response, raise [RuntimeError] with the
    body on any other response. *)
Definition post_step (rq : Request) : Prog W unit := fun s =>
  let '(out, w) := http_send (world s) rq in
  let s' := mkState w (self s) (trace s ++ [EvHttp rq out]) (next_id s) in
  match out with
  | inr resp =>
      if is_2xx resp then (Ret tt, s')
      else (Raise (RuntimeError (text resp)), s')
  | inl e => (Raise e, s')
  end.
(** The four bootstrap calls of [start] in a row. *)
Fixpoint run_posts (rqs : list Request) : Prog W unit :=
  match rqs with
  | [] => mret tt
  | rq :: rest => post_step rq ;; run_posts rest
  end.

(** The request of one round of the readiness loop. *)
Definition settings_get : Request :=
  mkRequest GET (management "/settings/web") [] NoAuth.

(** The events of the rounds of the readiness loop, given what the GETs came
    back with. *)
Fixpoint poll_events (outs : list Outcome) : list Event :=
  match outs with
  | [] => []
  | o :: rest => EvSleep 1 :: EvHttp settings_get o :: poll_events rest
  end.

(** A trace that ends with a 2xx answer to the readiness GET. *)
Definition ready_seen (ext : list Event) : Prop :=
  exists (pre : list Event) (resp : Response),
    ext = (pre ++ [EvHttp settings_get (inr resp)])%list /\ is_2xx resp = true.

(** What the readiness wait leaves behind, whatever its result: events that
    are no POSTs, and on return a 2xx answer to the last GET. *)
Definition quiet {A} (p : Prog W A) : Prop :=
  forall s : State W, exists ext : list Event,
    trace (p s).2 = trace s ++ ext /\
    self (p s).2 = self s /\
    next_id (p s).2 = next_id s /\
    Forall (fun e => is_post e = false) ext /\
    (is_Ret (p s).1 = true -> ready_seen ext).

(** [P] holds of the world from now on, and while it holds the log marker is
    found and no readiness GET is answered with 2xx or fails other than by a
    connection error. *)
Definition never_ready (P : W -> Prop) : Prop :=
  (forall w secs, P w -> P (sleep_for w secs)) /\
  (forall w, P w ->
     (wait_for_logs w "and logs available in").1 = None /\
     P (wait_for_logs w "and logs available in").2) /\
  (forall w, P w ->
     retried (http_send w settings_get).1 = true /\
     P (http_send w settings_get).2).

(** [op] sends the one request [rqf self] and lets the status of the answer
    decide: it returns exactly on a 2xx response, raises [RuntimeError] with
    the body of the response on any other response, and does nothing
    else. *)
Definition status_checked (op : Prog W unit) (rqf : Container -> Request)
  : Prop :=
  forall s : State W,
    let out := (http_send (world s) (rqf (self s))).1 in
    ((op s).1 = Ret tt <->
       exists resp, out = inr resp /\ 200 <= status_code resp < 300) /\
    (forall resp, out = inr resp -> ~ (200 <= status_code resp < 300) ->
       (op s).1 = Raise (RuntimeError (text resp))) /\
    trace (op s).2 = trace s ++ [EvHttp (rqf (self s)) out] /\
    self (op s).2 = self s.

(** One round of the readiness loop seen from the world: the answer to the
    GET sent after a second of sleep, and the world after it. *)
Definition round_answer (w : W) : Outcome :=
  (http_send (sleep_for w 1) settings_get).1.

Definition round_world (w : W) : W :=
  (http_send (sleep_for w 1) settings_get).2.

Fixpoint after_rounds (n : nat) (w : W) : W :=
  match n with
  | O => w
  | S n' => after_rounds n' (round_world w)
  end.

(** The answers to the first [n] rounds. *)
Fixpoint round_answers (n : nat) (w : W) : list Outcome :=
  match n with
  | O => []
  | S n' => round_answer w :: round_answers n' (round_world w)
  end.
End Requests.

(** The exception that a bootstrap call raises on an outcome that is not a
    2xx response. *)
Definition error_of (o : Outcome) : Exc :=
  match o with
  | inl e => e
  | inr r => RuntimeError (text r)
  end.

(** What a run of bootstrap calls comes to, given what the calls came back
    with: the error of the first call that was not answered with 2xx. *)
Fixpoint posts_result (outs : list Outcome) : Res unit :=
  match outs with
  | [] => Ret tt
  | o :: rest => if ok o then posts_result rest else Raise (error_of o)
  end.

Section Outcomes.
Context {W : Type} `{RT : Runtime W}.

(** What the endpoint answers to the requests [rqs] sent one after the
    other from the world [w], up to and including the first answer that is
    not 2xx. *)
Fixpoint post_outcomes (rqs : list Request) (w : W) : list Outcome :=
  match rqs with
  | [] => []
  | rq :: rest =>
      (http_send w rq).1 ::
      (if ok (http_send w rq).1 then post_outcomes rest (http_send w rq).2
       else [])
  end.
End Outcomes.

(** The five configuration fields of a container. *)
Definition config (c : Container) : string * string * string * string * string :=
  (username c, password c, bucket c, scope c, collection c).

(** [u[n:]] *)
Fixpoint string_drop (n : nat) (u : string) : string :=
  match n, u with
  | S n', String _ rest => string_drop n' rest
  | _, _ => u
  end.

(** Split a URL at the first [://] into scheme and rest. *)
Fixpoint split_scheme (u : string) : option (string * string) :=
  match u with
  | EmptyString => None
  | String c rest =>
      if String.prefix "://" u then Some (EmptyString, string_drop 3 u)
      else match split_scheme rest with
           | Some (sch, r) => Some (String c sch, r)
           | None => None
           end
  end.

(** ** A scripted runtime

    A world in which the management endpoint answers from a script, one
    entry per request, and with [503] once the script is used up; the log
    marker shows up, the container starts and the cluster becomes ready
    unless the world says otherwise. *)
Module Scripted.
Record world := mkWorld {
  script : list Outcome;
  logs_fail : bool;
  cluster_fails : bool;
  connect_fails : bool
}.

Definition unavailable : Response := mkResponse 503 "Service Unavailable".

#[global] Instance runtime : Runtime world := {|
  http_send w _ :=
    match script w with
    | o :: rest =>
        (o, mkWorld rest (logs_fail w) (cluster_fails w) (connect_fails w))
    | [] => (inr unavailable, w)
    end;
  sleep_for w _ := w;
  wait_for_logs w _ := (if logs_fail w then Some TimeoutError else None, w);
  runtime_start w _ := (None, w);
  get_container_host_ip := "localhost";
  get_exposed_port p := p;
  cluster_connect w _ _ :=
    (if connect_fails w then Some (OtherError "AuthenticationException")
     else None, w);
  wait_until_ready w _ _ :=
    (if cluster_fails w then Some UnAmbiguousTimeoutException else None, w);
  Json := string;
  json_loads body := if decide (body = "") then None else Some body;
  max_tries := 3;
  sleep_time := 1
|}.

Definition init (w : world) (c : Container) : State world :=
  mkState w c [] 0.

Definition healthy (o : list Outcome) : world :=
  mkWorld o false false false.

Definition resp (code : Z) (body : string) : Outcome :=
  inr (mkResponse code body).

(** [CouchbaseContainer()] in an empty environment. *)
Definition container : Container :=
  __init__ ∅ "couchbase:latest" None None None None None None.

(** A server that comes up and bootstraps without trouble: connection
    refused, then not ready, then ready, then the four POSTs accepted. *)
Definition comes_up : State world :=
  init (healthy [inl ConnectionError; resp 404 "Not found"; resp 200 "";
                 resp 200 ""; resp 202 ""; resp 200 ""; resp 200 ""])
       container.

(** A management endpoint that never gets ready: every request is answered
    with 503. *)
Definition down : State world := init (healthy []) container.
End Scripted.

(** * Properties *)

(** ** The constructor *)

Lemma py_or_given (a : option string) (b v : string) :
  a = Some v -> v <> "" -> py_or a b = v.
Proof. intros -> Hv. unfold py_or. by destruct (decide (v = "")). Qed.

Lemma py_or_absent (a : option string) (b : string) :
  a = None \/ a = Some "" -> py_or a b = b.
Proof. by intros [-> | ->]. Qed.

Lemma environ_get_set (environ : gmap string string) (key dflt v : string) :
  environ !! key = Some v -> environ_get environ key dflt = v.
Proof. unfold environ_get. by intros ->. Qed.

Lemma environ_get_unset (environ : gmap string string) (key dflt : string) :
  environ !! key = None -> environ_get environ key dflt = dflt.
Proof. unfold environ_get. by intros ->. Qed.

Lemma add_ports_exposed (l : list Z) (c : Container) :
  exposed (foldl add_port c l) = list_to_set l ∪ exposed c.
Proof.
  revert c. induction l as [|p l IH]; intros c; cbn [foldl].
  - rewrite list_to_set_nil. by rewrite (left_id_L ∅ (∪)).
  - rewrite IH, list_to_set_cons. unfold add_port, with_bind_ports,
      with_exposed_ports; cbn [exposed].
    rewrite (comm_L (∪) {[p]} (list_to_set l)).
    by rewrite (assoc_L (∪)).
Qed.

Lemma add_ports_bindings (l : list Z) (c : Container) (q : Z) :
  bindings (foldl add_port c l) !! q =
  if decide (q ∈ l) then Some q else bindings c !! q.
Proof.
  revert c. induction l as [|p l IH]; intros c; cbn [foldl].
  - by rewrite decide_False by apply not_elem_of_nil.
  - rewrite IH. unfold add_port at 1, with_bind_ports; cbn [bindings].
    destruct (decide (q ∈ l)) as [Hin|Hin].
    + rewrite decide_True; [done|]. apply elem_of_cons. by right.
    + destruct (decide (q = p)) as [->|Hne].
      * rewrite lookup_insert_eq. rewrite decide_True; [done|].
        apply elem_of_cons. by left.
      * rewrite lookup_insert_ne by done. rewrite decide_False; [done|].
        intros [?|?]%elem_of_cons; done.
Qed.

Lemma add_ports_config (l : list Z) (c : Container) :
  let c' := foldl add_port c l in
  image c' = image c /\ username c' = username c /\ password c' = password c /\
  bucket c' = bucket c /\ scope c' = scope c /\
  collection c' = collection c /\ env c' = env c.
Proof.
  revert c. induction l as [|p l IH]; intros c; simpl; [done|].
  specialize (IH (add_port c p)). simpl in IH. apply IH.
Qed.

(** The ports that [__init__] goes through. *)
Lemma init_unfold environ img ports u p b sc co :
  exists c0 : Container,
    __init__ environ img ports u p b sc co =
      foldl add_port c0
        (match ports with
         | None => default_ports
         | Some l => if decide (length l = 0%nat) then default_ports else l
         end) /\
    exposed c0 = ∅ /\ bindings c0 = ∅ /\ env c0 = ∅ /\
    username c0 = py_or u (environ_get environ "COUCHBASE_USERNAME" "Administrator") /\
    password c0 = py_or p (environ_get environ "COUCHBASE_PASSWORD" "password") /\
    bucket c0 = py_or b (environ_get environ "COUCHBASE_BUCKET" "default") /\
    scope c0 = py_or sc (environ_get environ "COUCHBASE_SCOPE" "default") /\
    collection c0 = py_or co (environ_get environ "COUCHBASE_COLLECTION" "default").
Proof. eexists. split; [reflexivity|]. by repeat split. Qed.

Lemma init_ports_of environ img ports u p b sc co (l : list Z) :
  (match ports with
   | None => default_ports
   | Some l => if decide (length l = 0%nat) then default_ports else l
   end) = l ->
  let c := __init__ environ img ports u p b sc co in
  exposed c = list_to_set l /\
  forall q h : Z, bindings c !! q = Some h <-> q ∈ l /\ h = q.
Proof.
  intros Hl c. subst c.
  destruct (init_unfold environ img ports u p b sc co)
    as (c0 & -> & Hex & Hbi & _).
  rewrite Hl. split.
  - rewrite add_ports_exposed, Hex. by rewrite (right_id_L ∅ (∪)).
  - intros q h. rewrite add_ports_bindings, Hbi, lookup_empty.
    destruct (decide (q ∈ l)) as [Hin|Hin]; split.
    + by intros [= ->].
    + by intros [_ ->].
    + done.
    + by intros [? _].
Qed.

(** C10: with [ports] absent or empty the container exposes the eighteen
    default ports 8091-8097, 9123, 11207, 11210, 11280 and 18091-18097 and
    binds each to the host port of the same number; with a non-empty list
    it exposes exactly the listed ports and binds each to the host port of
    the same number. *)
Theorem init_ports environ img u p b sc co :
  (forall ports, ports = None \/ ports = Some [] ->
     let c := __init__ environ img ports u p b sc co in
     let dflt := [8091; 8092; 8093; 8094; 8095; 8096; 8097; 9123; 11207;
                  11210; 11280; 18091; 18092; 18093; 18094; 18095; 18096;
                  18097] in
     exposed c = list_to_set dflt /\
     size (exposed c) = 18%nat /\
     forall q h : Z, bindings c !! q = Some h <-> q ∈ dflt /\ h = q) /\
  (forall l, l <> [] ->
     let c := __init__ environ img (Some l) u p b sc co in
     exposed c = list_to_set l /\
     forall q h : Z, bindings c !! q = Some h <-> q ∈ l /\ h = q).
Proof.
  split.
  - intros ports Hp c dflt.
    assert (Hc : exposed c = list_to_set dflt /\
                 forall q h : Z, bindings c !! q = Some h <-> q ∈ dflt /\ h = q).
    { apply init_ports_of. by destruct Hp as [-> | ->]. }
    destruct Hc as [Hex Hbi]. split; [done|]. split; [|done].
    rewrite Hex. rewrite size_list_to_set; [done|].
    subst dflt. refine (@bool_decide_unpack _ (NoDup_dec _) _). by vm_compute.
  - intros l Hl c. apply init_ports_of.
    destruct l as [|x l]; [done|]. reflexivity.
Qed.

(** The instance in which the default ports are used, and one with ports
    of the caller. *)
Lemma init_ports_witness :
  size (exposed (__init__ ∅ "couchbase:latest" (Some []) None None None None None))
    = 18%nat /\
  exposed (__init__ ∅ "couchbase:latest" (Some [8091; 11210]) None None None None None)
    = list_to_set [8091; 11210].
Proof.
  split.
  - apply (proj1 (init_ports ∅ "couchbase:latest" None None None None None)
                 (Some [])). by right.
  - apply (proj2 (init_ports ∅ "couchbase:latest" None None None None None)
                 [8091; 11210]). done.
Defined.

(** ** The bootstrap calls, one at a time *)

Section Bootstrap.
Context {W : Type} `{RT : Runtime W}.

Ltac run_post :=
  intros;
  cbv [set_admin_credentials _create_bucket _create_scope _create_collection
       post_step mbind Prog_bind mret Prog_ret get_self requests_post request
       raise log credentials_request bucket_request scope_request
       collection_request management];
  cbn [world self trace next_id];
  change (py_lower (py_str_bool false)) with "false";
  repeat match goal with
         | |- context [http_send ?w ?rq] => destruct (http_send w rq) as [[?|?] ?]
         | |- context [is_2xx ?r] => destruct (is_2xx r)
         end;
  reflexivity.

Lemma set_admin_credentials_step s :
  set_admin_credentials s = post_step (credentials_request (self s)) s.
Proof. run_post. Qed.

Lemma create_bucket_step s :
  _create_bucket s = post_step (bucket_request (self s)) s.
Proof. run_post. Qed.

Lemma create_scope_step s :
  _create_scope s = post_step (scope_request (self s)) s.
Proof. run_post. Qed.

Lemma create_collection_step s :
  _create_collection s = post_step (collection_request (self s)) s.
Proof. run_post. Qed.
(** What one bootstrap call does, in terms of what the endpoint answers. *)
Lemma post_step_spec (rq : Request) (s : State W) :
  let out := (http_send (world s) rq).1 in
  let r := post_step rq s in
  trace r.2 = trace s ++ [EvHttp rq out] /\
  self r.2 = self s /\
  next_id r.2 = next_id s /\
  world r.2 = (http_send (world s) rq).2 /\
  r.1 = match out with
        | inr resp => if is_2xx resp then Ret tt
                      else Raise (RuntimeError (text resp))
        | inl e => Raise e
        end.
Proof.
  unfold post_step. destruct (http_send (world s) rq) as [[e|resp] w]; cbn.
  - done.
  - by destruct (is_2xx resp).
Qed.

Lemma post_step_Ret (rq : Request) (s : State W) :
  is_Ret (post_step rq s).1 = ok (http_send (world s) rq).1.
Proof.
  destruct (post_step_spec rq s) as (_ & _ & _ & _ & ->).
  destruct (http_send (world s) rq).1 as [e|resp]; cbn; [done|].
  by destruct (is_2xx resp).
Qed.

Lemma post_step_not_Running (rq : Request) (s : State W) :
  (post_step rq s).1 <> Running.
Proof.
  destruct (post_step_spec rq s) as (_ & _ & _ & _ & ->).
  destruct (http_send (world s) rq).1 as [e|resp]; [done|].
  by destruct (is_2xx resp).
Qed.

(** A run of bootstrap calls sends a prefix of the requests in order; every
    outcome but the last is a 2xx response, and the run returns exactly
    when all requests were sent and answered with 2xx. *)
Lemma run_posts_spec (rqs : list Request) (s : State W) :
  exists outs : list Outcome,
    trace (run_posts rqs s).2 = trace s ++ zip_with EvHttp rqs outs /\
    self (run_posts rqs s).2 = self s /\
    next_id (run_posts rqs s).2 = next_id s /\
    (length outs <= length rqs)%nat /\
    (forall (i : nat) o, outs !! i = Some o -> ok o = false ->
                         S i = length outs) /\
    (is_Ret (run_posts rqs s).1 = true <->
       length outs = length rqs /\ Forall (fun o => ok o = true) outs) /\
    (run_posts rqs s).1 <> Running.
Proof.
  revert s. induction rqs as [|rq rqs IH]; intros s.
  - exists []. cbn. rewrite app_nil_r. by split_and!.
  - cbn [run_posts]. unfold mbind, Prog_bind.
    pose proof (post_step_spec rq s) as (Htr & Hself & Hid & _ & Hres).
    pose proof (post_step_Ret rq s) as Hret.
    pose proof (post_step_not_Running rq s) as Hrun.
    destruct (post_step rq s) as [r s1]. cbn [fst snd] in *.
    set (out := (http_send (world s) rq).1) in *.
    destruct r as [[]|e|]; [|clear IH|done].
    + destruct (IH s1) as (outs & Htr1 & Hself1 & Hid1 & Hlen & Hlast & Hok & Hnr).
      exists (out :: outs). cbn [zip_with length].
      rewrite Htr1, Htr, Hself1, Hid1, <- (assoc_L (++)). cbn [app].
      split_and!; try done.
      * lia.
      * intros [|i] o; cbn.
        -- intros [= <-] Hf. rewrite Hf in Hret. done.
        -- intros Hi Hf. f_equal. eauto.
      * split.
        -- intros Hr. apply Hok in Hr as [Hl Hall]. split; [by f_equal|].
           by constructor.
        -- intros [Hl Hall]. apply Hok. split; [lia|]. by inversion Hall.
    + exists [out]. cbn [zip_with length]. split_and!; try done.
      * cbn [snd]. rewrite Htr. by destruct rqs.
      * lia.
      * by intros [|[|i]] o.
      * split; [done|]. intros [_ Hall]. inversion Hall as [|?? Hout _]; subst.
        rewrite Hout in Hret. done.
Qed.

(** The tail of [start] is such a run. *)
Lemma bootstrap_run {A} (k : Prog W A) (s : State W) :
  (set_admin_credentials ;; _create_bucket ;; _create_scope ;;
   _create_collection ;; k) s =
  (run_posts (bootstrap_requests (self s)) ;; k) s.
Proof.
  cbn [run_posts bootstrap_requests]. unfold mbind, Prog_bind.
  rewrite set_admin_credentials_step.
  pose proof (post_step_spec (credentials_request (self s)) s) as (_ & H1 & _).
  destruct (post_step _ s) as [[[]|e|] s1]; cbn [snd] in H1; try done.
  rewrite create_bucket_step, H1.
  pose proof (post_step_spec (bucket_request (self s)) s1) as (_ & H2 & _).
  destruct (post_step _ s1) as [[[]|e|] s2]; cbn [snd] in H2; try done.
  rewrite create_scope_step, H2, H1.
  pose proof (post_step_spec (scope_request (self s)) s2) as (_ & H3 & _).
  destruct (post_step _ s2) as [[[]|e|] s3]; cbn [snd] in H3; try done.
  rewrite create_collection_step, H3, H2, H1.
  destruct (post_step _ s3) as [[[]|e|] s4]; try done.
Qed.
End Bootstrap.

(** ** The readiness wait *)

Section Readiness.
Context {W : Type} `{RT : Runtime W}.

(** One round of the loop. *)
Lemma poll_S (fuel : nat) (s : State W) :
  poll (S fuel) s =
  let out := (http_send (sleep_for (world s) 1) settings_get).1 in
  let s' := mkState (http_send (sleep_for (world s) 1) settings_get).2 (self s)
              ((trace s ++ [EvSleep 1]) ++ [EvHttp settings_get out])
              (next_id s) in
  match out with
  | inr resp => if is_2xx resp then (Ret tt, s') else poll fuel s'
  | inl e => if bool_decide (e = ConnectionError) then poll fuel s'
             else (Raise e, s')
  end.
Proof.
  cbn [poll].
  cbv [mbind Prog_bind mret Prog_ret sleep try_except requests_get request log
       settings_get management].
  cbn [world self trace next_id].
  destruct (http_send _ _) as [[e|resp] w]; cbn [fst snd].
  - by destruct (bool_decide (e = ConnectionError)).
  - by destruct (is_2xx resp).
Qed.

Lemma poll_events_app (l1 l2 : list Outcome) :
  poll_events (l1 ++ l2) = poll_events l1 ++ poll_events l2.
Proof. induction l1 as [|o l1 IH]; cbn; [done|]. by rewrite IH. Qed.

(** The loop, in terms of what its GETs come back with. *)
Lemma poll_spec (fuel : nat) (s : State W) :
  exists outs : list Outcome,
    trace (poll fuel s).2 = trace s ++ poll_events outs /\
    self (poll fuel s).2 = self s /\
    next_id (poll fuel s).2 = next_id s /\
    (length outs <= fuel)%nat /\
    match (poll fuel s).1 with
    | Ret _ => exists pre resp,
        outs = pre ++ [inr resp] /\ is_2xx resp = true /\
        Forall (fun o => retried o = true) pre
    | Raise e => exists pre,
        outs = pre ++ [inl e] /\ e <> ConnectionError /\
        Forall (fun o => retried o = true) pre
    | Running =>
        length outs = fuel /\ Forall (fun o => retried o = true) outs
    end.
Proof.
  revert s. induction fuel as [|fuel IH]; intros s.
  - exists []. cbn. rewrite app_nil_r. by split_and!.
  - rewrite poll_S. cbv zeta.
    set (out := (http_send (sleep_for (world s) 1) settings_get).1).
    set (s' := mkState _ _ _ _).
    assert (Hgo : retried out = true ->
      exists outs : list Outcome,
        trace (poll fuel s').2 = trace s ++ poll_events outs /\
        self (poll fuel s').2 = self s /\
        next_id (poll fuel s').2 = next_id s /\
        (length outs <= S fuel)%nat /\
        match (poll fuel s').1 with
        | Ret _ => exists pre resp,
            outs = pre ++ [inr resp] /\ is_2xx resp = true /\
            Forall (fun o => retried o = true) pre
        | Raise e => exists pre,
            outs = pre ++ [inl e] /\ e <> ConnectionError /\
            Forall (fun o => retried o = true) pre
        | Running =>
            length outs = S fuel /\ Forall (fun o => retried o = true) outs
        end).
    { intros Hout. destruct (IH s') as (outs & Htr & Hself & Hid & Hlen & Hres).
      exists (out :: outs). rewrite Htr, Hself, Hid.
      split_and!; try done.
      { subst s'. cbn [trace poll_events]. by rewrite <- !(assoc_L (++)). }
      { cbn [length]. lia. }
      destruct (poll fuel s').1 as [[]|e|].
      - destruct Hres as (pre & resp & -> & H2 & Hpre).
        exists (out :: pre), resp. split_and!; try done. by constructor.
      - destruct Hres as (pre & -> & He & Hpre).
        exists (out :: pre). split_and!; try done. by constructor.
      - destruct Hres as [<- Hall]. split; [done|]. by constructor. }
    destruct out as [e|resp] eqn:Eout.
    + destruct (bool_decide (e = ConnectionError)) eqn:Ee.
      * apply Hgo. cbn. done.
      * exists [inl e]. subst s'. cbn [fst snd trace self next_id poll_events length].
        rewrite <- !(assoc_L (++)). cbn [app].
        split_and!; try done; [lia|].
        exists []. split_and!; try done.
        by apply bool_decide_eq_false in Ee.
    + destruct (is_2xx resp) eqn:E2.
      * exists [inr resp]. subst s'. cbn [fst snd trace self next_id poll_events length].
        rewrite <- !(assoc_L (++)). cbn [app].
        split_and!; try done; [lia|].
        exists [], resp. by split_and!.
      * apply Hgo. cbn. by rewrite E2.
Qed.
Lemma is_2xx_range (r : Response) :
  is_2xx r = true <-> 200 <= status_code r < 300.
Proof. unfold is_2xx. rewrite andb_true_iff, Z.leb_le, Z.ltb_lt. done. Qed.

Lemma ready_seen_app (l ext : list Event) :
  ready_seen ext -> ready_seen (l ++ ext).
Proof.
  intros (pre & resp & -> & H2). exists (l ++ pre), resp.
  by rewrite (assoc_L (++)).
Qed.

Lemma poll_events_quiet (outs : list Outcome) :
  Forall (fun e => is_post e = false) (poll_events outs).
Proof. induction outs as [|o outs IH]; cbn; repeat constructor; done. Qed.

Lemma poll_events_snoc (pre : list Outcome) (o : Outcome) :
  poll_events (pre ++ [o]) =
  (poll_events pre ++ [EvSleep 1]) ++ [EvHttp settings_get o].
Proof. rewrite poll_events_app. cbn. by rewrite <- (assoc_L (++)). Qed.

(** The decorator hands on what the decorated method does, unless that
    raises a transient exception. *)
Lemma connect_decorated (fuel : nat) (s : State W) :
  (0 < max_tries)%nat ->
  (forall e, (_connect_wrapped fuel s).1 = Raise e -> transient e = false) ->
  _connect fuel s = _connect_wrapped fuel s.
Proof.
  intros Htries Hraise. unfold _connect.
  destruct max_tries as [|tries]; [lia|].
  cbn [wait_container_is_ready]. unfold try_except.
  destruct (_connect_wrapped fuel s) as [[[]|e|] s1]; try done.
  by rewrite (Hraise e).
Qed.

(** C3: after the wait for the log marker, the poller sleeps one second and
    sends a GET to the settings endpoint, round after round.  It returns
    exactly when a GET is answered with 2xx, which is then the first such
    answer; on every other response and on a connection error it goes round
    again; only another exception of the GET ends it with that exception.
    While no 2xx answer has come it is still running, however many rounds
    it is given.  The decorator of [_connect] hands all this on; it only
    starts the method again after a [TimeoutError]. *)
Theorem connect_polls (fuel : nat) (s : State W) :
  let marker := "and logs available in" in
  let r := _connect_wrapped fuel s in
  match (wait_for_logs (world s) marker).1 with
  | Some e =>
      r.1 = Raise e /\ trace r.2 = trace s ++ [EvLogs marker (Some e)]
  | None =>
      exists outs : list Outcome,
        trace r.2 = trace s ++ EvLogs marker None :: poll_events outs /\
        (length outs <= fuel)%nat /\
        match r.1 with
        | Ret _ => exists pre resp,
            outs = pre ++ [inr resp] /\ 200 <= status_code resp < 300 /\
            Forall (fun o => retried o = true) pre
        | Raise e => exists pre,
            outs = pre ++ [inl e] /\ e <> ConnectionError /\
            Forall (fun o => retried o = true) pre
        | Running =>
            length outs = fuel /\ Forall (fun o => retried o = true) outs
        end
  end /\
  ((0 < max_tries)%nat -> (forall e, r.1 = Raise e -> transient e = false) ->
   _connect fuel s = r).
Proof.
  intros marker r. split; [|by apply connect_decorated].
  subst r. unfold _connect_wrapped, mbind, Prog_bind.
  unfold do_wait_for_logs. fold marker.
  destruct (wait_for_logs (world s) marker) as [[e|] w]; cbn [fst snd].
  - done.
  - set (s1 := log _ _).
    destruct (poll_spec fuel s1) as (outs & Htr & _ & _ & Hlen & Hres).
    exists outs. rewrite Htr. split_and!; try done.
    { subst s1. unfold log. cbn [trace]. by rewrite <- (assoc_L (++)). }
    destruct (poll fuel s1).1 as [[]|e|]; [|done|done].
    destruct Hres as (pre & resp & -> & H2 & Hpre).
    apply is_2xx_range in H2. exists pre, resp. split_and!; (done || lia).
Qed.

Lemma connect_wrapped_quiet (fuel : nat) : quiet (_connect_wrapped fuel).
Proof.
  intros s. unfold _connect_wrapped, mbind, Prog_bind.
  unfold do_wait_for_logs.
  destruct (wait_for_logs (world s) _) as [[e|] w]; cbn [fst snd].
  - eexists. unfold log; cbn [trace self next_id]. split_and!; try done.
    by repeat constructor.
  - set (s1 := log _ _).
    destruct (poll_spec fuel s1) as (outs & Htr & Hself & Hid & Hlen & Hres).
    exists (EvLogs "and logs available in" None :: poll_events outs).
    rewrite Htr, Hself, Hid. split_and!; try done.
    + subst s1. unfold log. cbn [trace]. by rewrite <- (assoc_L (++)).
    + constructor; [done|]. apply poll_events_quiet.
    + destruct (poll fuel s1).1 as [[]|e|]; [|done|done]. intros _.
      destruct Hres as (pre & resp & -> & H2 & Hpre).
      apply (ready_seen_app [_]).
      exists (poll_events pre ++ [EvSleep 1]), resp.
      split; [apply poll_events_snoc | done].
Qed.

Lemma decorated_quiet {A} (wrapped : Prog W A) (tries : nat) :
  quiet wrapped -> quiet (wait_container_is_ready tries wrapped).
Proof.
  intros Hw. induction tries as [|tries IH]; intros s.
  - exists []. cbn. rewrite app_nil_r. by split_and!.
  - cbn [wait_container_is_ready]. unfold try_except.
    destruct (Hw s) as (ext & Htr & Hself & Hid & Hq & Hr).
    destruct (wrapped s) as [[a|e|] s1]; cbn [fst snd] in *.
    + by exists ext.
    + destruct (transient e); [|by exists ext].
      unfold mbind, Prog_bind, sleep.
      set (s2 := log _ _).
      destruct (IH s2) as (ext2 & Htr2 & Hself2 & Hid2 & Hq2 & Hr2).
      exists (ext ++ EvSleep sleep_time :: ext2).
      split_and!.
      * rewrite Htr2. subst s2. unfold log. cbn [trace].
        by rewrite Htr, <- !(assoc_L (++)).
      * by rewrite Hself2.
      * by rewrite Hid2.
      * apply Forall_app. split; [done|]. by constructor.
      * intros Hret. apply ready_seen_app, (ready_seen_app [_]). auto.
    + by exists ext.
Qed.

Lemma connect_quiet (fuel : nat) : quiet (_connect fuel).
Proof. apply decorated_quiet, connect_wrapped_quiet. Qed.
End Readiness.

(** ** The bootstrap sequence *)

Section Sequencing.
Context {W : Type} `{RT : Runtime W}.

Lemma bootstrap_requests_config (c c' : Container) :
  config c = config c' -> bootstrap_requests c = bootstrap_requests c'.
Proof.
  unfold config. intros [= Hu Hp Hb Hs Hc].
  unfold bootstrap_requests, credentials_request, bucket_request,
    scope_request, collection_request.
  by rewrite Hu, Hp, Hb, Hs, Hc.
Qed.

Lemma configure_spec (s : State W) :
  (_configure s).1 = Ret tt /\
  trace (_configure s).2 = trace s /\
  next_id (_configure s).2 = next_id s /\
  world (_configure s).2 = world s /\
  config (self (_configure s).2) = config (self s) /\
  env (self (_configure s).2) =
    <["COUCHBASE_BUCKET" := bucket (self s)]>
      (<["COUCHBASE_PASSWORD" := password (self s)]>
         (<["COUCHBASE_USERNAME" := username (self s)]> (env (self s)))).
Proof. by split_and!. Qed.

Lemma super_start_spec (s : State W) :
  let res := (runtime_start (world s) (self s)).1 in
  trace (super_start s).2 = trace s ++ [EvStart (self s) res] /\
  self (super_start s).2 = self s /\
  next_id (super_start s).2 = next_id s /\
  (super_start s).1 = match res with None => Ret tt | Some e => Raise e end.
Proof.
  unfold super_start.
  by destruct (runtime_start (world s) (self s)) as [[e|] w].
Qed.

(** [start], stage by stage. *)
Lemma start_stages (fuel : nat) (s : State W) :
  start fuel s =
    match super_start (_configure s).2 with
    | (Ret _, s1) =>
        match _connect fuel s1 with
        | (Ret _, s2) =>
            match run_posts (bootstrap_requests (self s)) s2 with
            | (Ret _, s3) => (Ret (self s3), s3)
            | (Raise e, s3) => (Raise e, s3)
            | (Running, s3) => (Running, s3)
            end
        | (Raise e, s2) => (Raise e, s2)
        | (Running, s2) => (Running, s2)
        end
    | (Raise e, s1) => (Raise e, s1)
    | (Running, s1) => (Running, s1)
    end.
Proof.
  unfold start. unfold mbind at 1, Prog_bind at 1.
  pose proof (configure_spec s) as (Hc1 & _ & _ & _ & Hc3 & _).
  destruct (_configure s) as [r0 s0]. cbn [fst snd] in *. subst r0.
  unfold mbind at 1, Prog_bind at 1.
  pose proof (super_start_spec s0) as (_ & Hs2 & _).
  destruct (super_start s0) as [[[]|e|] s1]; cbn [snd] in *; try done.
  unfold mbind at 1, Prog_bind at 1.
  destruct (connect_quiet fuel s1) as (ext & _ & Hq2 & _).
  destruct (_connect fuel s1) as [[[]|e|] s2]; cbn [snd] in *; try done.
  rewrite bootstrap_run. unfold mbind, Prog_bind.
  rewrite (bootstrap_requests_config (self s2) (self s))
    by by rewrite Hq2, Hs2.
  by destruct (run_posts _ s2) as [[[]|e|] s3].
Qed.

(** A run of bootstrap calls in terms of the answers of the endpoint. *)
Lemma run_posts_outcomes (rqs : list Request) (s : State W) :
  let outs := post_outcomes rqs (world s) in
  trace (run_posts rqs s).2 = trace s ++ zip_with EvHttp rqs outs /\
  self (run_posts rqs s).2 = self s /\
  (run_posts rqs s).1 = posts_result outs.
Proof.
  revert s. induction rqs as [|rq rqs IH]; intros s.
  - cbn. by rewrite app_nil_r.
  - cbn [run_posts post_outcomes posts_result zip_with].
    unfold mbind, Prog_bind.
    pose proof (post_step_spec rq s) as (Htr & Hself & _ & Hw & Hres).
    pose proof (post_step_Ret rq s) as Hret.
    cbv zeta in Htr, Hres.
    destruct (post_step rq s) as [r s1]. cbn [fst snd] in *.
    destruct (ok (http_send (world s) rq).1) eqn:Hok.
    + destruct r as [[]|e|]; try done.
      destruct (IH s1) as (Htr1 & Hself1 & Hres1). cbv zeta in *.
      rewrite Htr1, Hself1, Hres1, Htr, Hself, Hw, <- (assoc_L (++)).
      done.
    + destruct r as [[]|e|]; try done; cbn [fst snd].
      * rewrite Htr. split_and!; [by destruct rqs|done|].
        destruct (http_send (world s) rq).1 as [e'|resp]; cbn in *.
        -- by injection Hres as ->.
        -- rewrite Hok in Hres. by injection Hres as ->.
      * exfalso. destruct (http_send (world s) rq).1 as [e'|resp]; [done|].
        by destruct (is_2xx resp).
Qed.

(** The answers to a run of bootstrap calls: there is one to the first
    call, one more after every 2xx answer while calls are left, and none
    after an answer that is not 2xx. *)
Lemma post_outcomes_facts (rqs : list Request) (w : W) :
  let outs := post_outcomes rqs w in
  (length outs <= length rqs)%nat /\
  (rqs <> [] -> outs <> []) /\
  (forall (i : nat) o, outs !! i = Some o -> ok o = false ->
                       S i = length outs) /\
  (forall (i : nat) o, outs !! i = Some o -> ok o = true ->
                       (S i < length rqs)%nat -> is_Some (outs !! S i)) /\
  (posts_result outs = Ret tt <->
     length outs = length rqs /\ Forall (fun o => ok o = true) outs) /\
  (forall pre o, outs = pre ++ [o] -> ok o = false ->
                 posts_result outs = Raise (error_of o)) /\
  posts_result outs <> Running.
Proof.
  revert w. induction rqs as [|rq rqs IH]; intros w.
  - cbn. split_and!; try done.
    + by intros pre o Hpre; destruct pre.
  - cbn [post_outcomes posts_result length].
    set (o1 := (http_send w rq).1). set (w1 := (http_send w rq).2).
    destruct (ok o1) eqn:Hok.
    + destruct (IH w1) as (Hlen & Hne & Hlast & Hprog & Hret & Hraise & Hrun).
      cbv zeta in *. cbn [posts_result length].
      split_and!; try done.
      * lia.
      * intros [|i] o; cbn.
        -- intros [= <-] Hf. congruence.
        -- intros Hi Hf. f_equal. eauto.
      * intros [|i] o; cbn.
        -- intros [= <-] _ Hlt. destruct rqs as [|rq' rqs']; [cbn in Hlt; lia|].
           destruct (post_outcomes (rq' :: rqs') w1) as [|o' l] eqn:E.
           { by destruct (Hne ltac:(done)). }
           by eexists.
        -- intros Hi Ht Hlt. apply (Hprog i o Hi Ht). lia.
      * rewrite Hret. split.
        -- intros [Hl Hall]. split; [by f_equal|]. by constructor.
        -- intros [Hl Hall]. split; [lia|]. by inversion Hall.
      * intros [|o' pre] o; cbn.
        -- intros [= -> Hnil] Hf. congruence.
        -- intros [= <- Hpre] Hf. by apply (Hraise pre o).
    + cbn [posts_result length]. split_and!; try done.
      * lia.
      * by intros [|[|i]] o.
      * intros [|[|i]] o; cbn; try done. intros [= <-] Ht. congruence.
      * split; [done|]. intros [_ Hall]. inversion Hall; congruence.
      * intros [|o' [|o'' pre]] o; cbn; try done. by intros [= ->].
Qed.

(** The stages of [start] and what each leaves behind. *)
Lemma start_shape (fuel : nat) (s : State W) :
  let st := super_start (_configure s).2 in
  let cn := _connect fuel st.2 in
  let rqs := bootstrap_requests (self s) in
  let outs := post_outcomes rqs (world cn.2) in
  let c' := self (_configure s).2 in
  st.1 <> Running /\
  trace st.2 = trace s ++ [EvStart c' (runtime_start (world s) c').1] /\
  (exists ext, trace cn.2 = trace st.2 ++ ext /\
     Forall (fun e => is_post e = false) ext /\
     (is_Ret cn.1 = true -> ready_seen ext)) /\
  match st.1 with
  | Ret _ =>
      match cn.1 with
      | Ret _ =>
          trace (start fuel s).2 = trace cn.2 ++ zip_with EvHttp rqs outs /\
          is_Ret (start fuel s).1 = is_Ret (posts_result outs) /\
          (start fuel s).1 <> Running /\
          (forall e, (start fuel s).1 = Raise e <->
                     posts_result outs = Raise e)
      | Raise e => start fuel s = (Raise e, cn.2)
      | Running => start fuel s = (Running, cn.2)
      end
  | Raise e => start fuel s = (Raise e, st.2)
  | Running => start fuel s = (Running, st.2)
  end.
Proof.
  intros st cn rqs outs c'.
  pose proof (configure_spec s) as (_ & Htr0 & _ & Hw0 & _).
  pose proof (super_start_spec (_configure s).2) as (Hs1 & _ & _ & Hs3).
  cbv zeta in Hs1, Hs3. rewrite Hw0, Htr0 in Hs1. rewrite Hw0 in Hs3.
  fold st c' in Hs1, Hs3.
  destruct (connect_quiet fuel st.2) as (ext & Hq1 & _ & _ & Hq3 & Hq4).
  fold cn in Hq1, Hq4.
  split_and!; [|done|by exists ext|].
  { rewrite Hs3. by destruct (runtime_start (world s) c').1. }
  rewrite start_stages. fold st.
  destruct st as [r1 s1] eqn:Est. cbn [fst snd] in *.
  destruct r1 as [[]|e|]; try done.
  subst cn. destruct (_connect fuel s1) as [r2 s2] eqn:Ecn.
  cbn [fst snd] in *. destruct r2 as [[]|e|]; try done.
  destruct (run_posts_outcomes rqs s2) as (Htr & _ & Hres).
  cbv zeta in Htr, Hres. fold outs in Htr, Hres. fold rqs.
  destruct (post_outcomes_facts rqs (world s2)) as (_ & _ & _ & _ & _ & _ & Hnr).
  cbv zeta in Hnr. fold outs in Hnr.
  destruct (run_posts rqs s2) as [r3 s3]. cbn [fst snd] in *.
  rewrite <- Hres in *.
  destruct r3 as [[]|e|]; cbn [fst snd]; split_and!; try done.
  intros e'. split; congruence.
Qed.

(** C1: a run of [start] does its work in one order, and does it.  Its
    trace is a part without any POST, which holds the start of the
    container and the whole readiness wait and nothing else, followed by a
    prefix of the four bootstrap POSTs in the order credentials, bucket,
    scope, collection.  A POST is only sent after the readiness wait has
    seen a 2xx answer, and once the wait has returned the credentials POST
    is sent; every POST but the last that is answered with 2xx is followed
    by the next one; a POST that does not come back with 2xx is the last one
    sent, so that after a failed credentials call no bucket, scope or
    collection call follows, and [start] then raises the error of that
    POST.  [start] returns exactly when all four were sent and answered
    with 2xx.  When the runtime or the readiness wait raises, or the wait
    is still running, so does [start], and no POST is sent. *)
Theorem start_order (fuel : nat) (s : State W) :
  let r := start fuel s in
  let st := super_start (_configure s).2 in
  let cn := _connect fuel st.2 in
  exists (pre : list Event) (outs : list Outcome),
    trace r.2 =
      trace s ++ pre ++ zip_with EvHttp (bootstrap_requests (self s)) outs /\
    bootstrap_requests (self s) =
      [credentials_request (self s); bucket_request (self s);
       scope_request (self s); collection_request (self s)] /\
    Forall (fun rq => meth rq = POST) (bootstrap_requests (self s)) /\
    Forall (fun e => is_post e = false) pre /\
    (outs <> [] -> ready_seen pre) /\
    (length outs <= 4)%nat /\
    (forall (i : nat) o, outs !! i = Some o -> ok o = false ->
                         S i = length outs) /\
    (forall o, outs !! 0%nat = Some o -> ok o = false -> outs = [o]) /\
    (is_Ret r.1 = true <->
       length outs = 4%nat /\ Forall (fun o => ok o = true) outs) /\
    match st.1 with
    | Ret _ =>
        trace s ++ pre = trace cn.2 /\
        match cn.1 with
        | Ret _ =>
            outs = post_outcomes (bootstrap_requests (self s)) (world cn.2) /\
            outs <> []
        | Raise e => outs = [] /\ r.1 = Raise e
        | Running => outs = [] /\ r.1 = Running
        end
    | Raise e => trace s ++ pre = trace st.2 /\ outs = [] /\ r.1 = Raise e
    | Running => False
    end /\
    (forall (i : nat) o, outs !! i = Some o -> ok o = true -> (i < 3)%nat ->
                         is_Some (outs !! S i)) /\
    (forall pre' o, outs = pre' ++ [o] -> ok o = false ->
                    r.1 = Raise (error_of o)) /\
    (r.1 = Running -> outs = []).
Proof.
  intros r st cn.
  assert (Hshape : forall outs : list Outcome,
    (forall (i : nat) o, outs !! i = Some o -> ok o = false ->
                         S i = length outs) ->
    forall o, outs !! 0%nat = Some o -> ok o = false -> outs = [o]).
  { intros outs Hlast o Ho Hf. specialize (Hlast 0%nat o Ho Hf).
    destruct outs as [|o' [|o'' outs]]; cbn in *; try done. congruence. }
  assert (Hposts : Forall (fun rq => meth rq = POST)
                     (bootstrap_requests (self s))).
  { by repeat constructor. }
  destruct (start_shape fuel s)
    as (Hnr & Hs1 & (ext & Hq1 & Hq3 & Hq4) & Hcase).
  fold st cn r in Hnr, Hs1, Hq1, Hq4, Hcase.
  set (ev := EvStart _ _) in Hs1.
  assert (Hev : is_post ev = false) by done.
  assert (Hnil : forall (res : Res Container) (s' : State W)
                        (evs : list Event),
    r = (res, s') -> is_Ret res = false ->
    trace s' = trace s ++ evs -> Forall (fun e => is_post e = false) evs ->
    trace r.2 = trace s ++ evs ++ zip_with EvHttp (bootstrap_requests (self s)) [] /\
    bootstrap_requests (self s) =
      [credentials_request (self s); bucket_request (self s);
       scope_request (self s); collection_request (self s)] /\
    Forall (fun rq => meth rq = POST) (bootstrap_requests (self s)) /\
    Forall (fun e => is_post e = false) evs /\
    (@nil Outcome <> [] -> ready_seen evs) /\
    (length (@nil Outcome) <= 4)%nat /\
    (forall (i : nat) o, (@nil Outcome) !! i = Some o -> ok o = false ->
                         S i = length (@nil Outcome)) /\
    (forall o, (@nil Outcome) !! 0%nat = Some o -> ok o = false ->
               (@nil Outcome) = [o]) /\
    (is_Ret r.1 = true <->
       length (@nil Outcome) = 4%nat /\
       Forall (fun o => ok o = true) (@nil Outcome))).
  { intros res s' evs -> Hres Htr Hq. cbn [fst snd zip_with length].
    rewrite Htr, app_nil_r. split_and!; try done; [cbn; lia|].
    rewrite Hres. split; [done|]. by intros [? _]. }
  destruct st.1 as [[]|e|]; [| |done].
  - destruct cn.1 as [[]|e|].
    + destruct Hcase as (Htr & Hret & Hrun & Hraise).
      set (outs := post_outcomes (bootstrap_requests (self s)) (world cn.2))
        in *.
      destruct (post_outcomes_facts (bootstrap_requests (self s)) (world cn.2))
        as (Hlen & Hne & Hlast & Hprog & Hall & Herr & _).
      cbv zeta in Hlen, Hne, Hlast, Hprog, Hall, Herr.
      fold outs in Hlen, Hne, Hlast, Hprog, Hall, Herr.
      exists (ev :: ext), outs.
      assert (Hpre : trace s ++ ev :: ext = trace cn.2).
      { by rewrite Hq1, Hs1, <- (assoc_L (++)). }
      split_and!; try done; eauto.
      * fold r in Htr. rewrite Htr, <- Hpre. by rewrite <- !(assoc_L (++)).
      * intros _. apply (ready_seen_app [_]). by apply Hq4.
      * fold r in Hret. rewrite Hret, <- Hall.
        destruct (posts_result outs) as [[]|e|]; split; done.
      * intros i o Hi Ht Hlt. apply (Hprog i o Hi Ht). cbn. lia.
      * intros pre' o Ho Hf. fold r in Hraise. apply Hraise. eauto.
    + assert (Hpre : trace cn.2 = trace s ++ ev :: ext).
      { by rewrite Hq1, Hs1, <- (assoc_L (++)). }
      assert (Hq : Forall (fun e => is_post e = false) (ev :: ext))
        by by constructor.
      destruct (Hnil (Raise e) cn.2 (ev :: ext) Hcase eq_refl Hpre Hq)
        as (H1 & H2 & H3 & H4 & H5 & H6 & H7 & H8 & H9).
      exists (ev :: ext), []. split_and!; try done.
      * by rewrite Hcase.
      * by intros pre' o Ho; destruct pre'.
    + assert (Hpre : trace cn.2 = trace s ++ ev :: ext).
      { by rewrite Hq1, Hs1, <- (assoc_L (++)). }
      assert (Hq : Forall (fun e => is_post e = false) (ev :: ext))
        by by constructor.
      destruct (Hnil Running cn.2 (ev :: ext) Hcase eq_refl Hpre Hq)
        as (H1 & H2 & H3 & H4 & H5 & H6 & H7 & H8 & H9).
      exists (ev :: ext), []. split_and!; try done.
      * by rewrite Hcase.
      * by intros pre' o Ho; destruct pre'.
  - assert (Hq : Forall (fun e => is_post e = false) [ev])
      by by constructor.
    destruct (Hnil (Raise e) st.2 [ev] Hcase eq_refl Hs1 Hq)
      as (H1 & H2 & H3 & H4 & H5 & H6 & H7 & H8 & H9).
    exists [ev], []. split_and!; try done.
    + by rewrite Hcase.
    + by intros pre' o Ho; destruct pre'.
Qed.
End Sequencing.

(** ** Status handling and payloads of the bootstrap calls *)

Section Calls.
Context {W : Type} `{RT : Runtime W}.

Lemma post_step_checked (op : Prog W unit) (rqf : Container -> Request) :
  (forall s, op s = post_step (rqf (self s)) s) -> status_checked op rqf.
Proof.
  intros Hop s out. subst out. rewrite Hop.
  destruct (post_step_spec (rqf (self s)) s) as (Htr & Hself & _ & _ & Hres).
  rewrite Htr, Hself, Hres.
  destruct (http_send (world s) (rqf (self s))).1 as [e|resp].
  - split_and!; try done. split; [done|]. by intros (? & ? & _).
  - pose proof (is_2xx_range resp) as H2.
    destruct (is_2xx resp); split_and!; try done.
    + split; [|done]. intros _. exists resp. split; [done|]. by apply H2.
    + intros resp' [= <-] Hn. exfalso. apply Hn. by apply H2.
    + split; [done|]. intros (resp' & [= <-] & Hr). by apply H2 in Hr.
    + by intros resp' [= <-] _.
Qed.

(** C2: each of the four bootstrap POSTs returns exactly when the response
    has a 2xx status; on a response with any other status it raises an
    error whose detail is the body of the response as it came; and the POST
    is all it does: no further request, in particular nothing that would
    undo an earlier step, follows a failure. *)
Theorem bootstrap_status_checked :
  status_checked set_admin_credentials credentials_request /\
  status_checked _create_bucket bucket_request /\
  status_checked _create_scope scope_request /\
  status_checked _create_collection collection_request.
Proof.
  split_and!; apply post_step_checked.
  - apply set_admin_credentials_step.
  - apply create_bucket_step.
  - apply create_scope_step.
  - apply create_collection_step.
Qed.

(** C7: the requests of the bootstrap, field by field.  The credentials POST
    goes out without authentication and carries username, password and
    port=SAME; the bucket POST carries name, bucketType=couchbase and
    ramQuotaMB=256; the scope POST carries name; the collection POST carries
    name, maxTTL=3600 and history=false; the last three use basic
    authentication with the username and password that the first one
    set. *)
Theorem bootstrap_payloads (s : State W) :
  let c := self s in
  let at_ path := "http://" +:+ get_container_host_ip +:+ ":"
                  +:+ pretty (get_exposed_port 8091) +:+ path in
  (exists out, trace (set_admin_credentials s).2 = trace s ++
     [EvHttp {| meth := POST;
                url := at_ "/settings/web";
                data := [("username", PStr (username c));
                         ("password", PStr (password c));
                         ("port", PStr "SAME")];
                auth := NoAuth |} out]) /\
  (exists out, trace (_create_bucket s).2 = trace s ++
     [EvHttp {| meth := POST;
                url := at_ "/pools/default/buckets";
                data := [("name", PStr (bucket c));
                         ("bucketType", PStr "couchbase");
                         ("ramQuotaMB", PInt 256)];
                auth := BasicAuth (username c) (password c) |} out]) /\
  (exists out, trace (_create_scope s).2 = trace s ++
     [EvHttp {| meth := POST;
                url := at_ ("/pools/default/buckets/" +:+ bucket c
                            +:+ "/scopes");
                data := [("name", PStr (scope c))];
                auth := BasicAuth (username c) (password c) |} out]) /\
  (exists out, trace (_create_collection s).2 = trace s ++
     [EvHttp {| meth := POST;
                url := at_ ("/pools/default/buckets/" +:+ bucket c
                            +:+ "/scopes/" +:+ scope c +:+ "/collections");
                data := [("name", PStr (collection c));
                         ("maxTTL", PInt 3600);
                         ("history", PStr "false")];
                auth := BasicAuth (username c) (password c) |} out]).
Proof.
  intros c at_. subst c at_.
  rewrite set_admin_credentials_step, create_bucket_step, create_scope_step,
    create_collection_step.
  split_and!; eexists;
    match goal with
    | |- trace (post_step ?rq s).2 = _ =>
        rewrite (proj1 (post_step_spec rq s))
    end; reflexivity.
Qed.
End Calls.

(** ** Client, inspection and configuration *)

Section Accessors.
Context {W : Type} `{RT : Runtime W}.

Lemma start_self (fuel : nat) (s : State W) :
  self (start fuel s).2 = self (_configure s).2.
Proof.
  unfold start. unfold mbind at 1, Prog_bind at 1.
  destruct (_configure s) as [[[]|e|] s0]; cbn [snd]; try done.
  unfold mbind at 1, Prog_bind at 1.
  pose proof (super_start_spec s0) as (_ & Hs & _).
  destruct (super_start s0) as [[[]|e|] s1]; cbn [snd] in *; try done.
  unfold mbind at 1, Prog_bind at 1.
  destruct (connect_quiet fuel s1) as (ext & _ & Hq & _).
  destruct (_connect fuel s1) as [[[]|e|] s2]; cbn [snd] in *;
    try congruence.
  rewrite bootstrap_run. unfold mbind, Prog_bind.
  destruct (run_posts_spec (bootstrap_requests (self s2)) s2)
    as (outs & _ & Hp & _).
  destruct (run_posts _ s2) as [[[]|e|] s3]; cbn [snd get_self] in *;
    congruence.
Qed.

Lemma start_config (fuel : nat) (s : State W) :
  config (self (start fuel s).2) = config (self s).
Proof. rewrite start_self. apply configure_spec. Qed.

Lemma client_spec (s : State W) :
  let c := mkCluster (next_id s) get_connection_url
             (mkClusterOptions (username (self s), password (self s))
                               10 true TLS_NONE) in
  let made := cluster_connect (world s) get_connection_url (options c) in
  let res := (wait_until_ready made.2 c 15).1 in
  trace (client s).2 =
    trace s ++ match made.1 with
               | Some e => [EvCluster c (Some e)]
               | None => [EvCluster c None; EvWaitReady (next_id s) 15 res]
               end /\
  (client s).1 = match made.1 with
                 | Some e => Raise e
                 | None => match res with None => Ret c | Some e => Raise e end
                 end /\
  next_id (client s).2 = S (next_id s) /\
  self (client s).2 = self s.
Proof.
  cbv [client mbind Prog_bind mret Prog_ret get_self new_cluster
       cluster_wait_until_ready log].
  cbn [world self trace next_id cluster_id options].
  destruct (cluster_connect (world s) _ _) as [[e|] w]; cbn [fst snd].
  { by split_and!. }
  cbn [world self trace next_id cluster_id options].
  destruct (wait_until_ready w _ 15) as [[e|] w']; cbn [fst snd];
    rewrite <- (assoc_L (++)); by split_and!.
Qed.

(** The cluster object that [client] returns, when it returns. *)
Lemma client_returns (s : State W) (c : Cluster) :
  (client s).1 = Ret c ->
  c = mkCluster (next_id s) get_connection_url
        (mkClusterOptions (username (self s), password (self s))
                          10 true TLS_NONE).
Proof.
  intros Hc. destruct (client_spec s) as (_ & Hres & _).
  cbv zeta in Hres. rewrite Hc in Hres.
  destruct (cluster_connect _ _ _).1; [done|].
  destruct (wait_until_ready _ _ _).1; [done|]. by injection Hres.
Qed.

Lemma list_buckets_spec (s : State W) :
  let rq := mkRequest GET (management "/pools/default/buckets") []
              (BasicAuth (username (self s)) (password (self s))) in
  let out := (http_send (world s) rq).1 in
  trace (list_buckets s).2 = trace s ++ [EvHttp rq out] /\
  self (list_buckets s).2 = self s /\
  next_id (list_buckets s).2 = next_id s /\
  (list_buckets s).1 =
    match out with
    | inr resp =>
        if is_2xx resp then
          match json_loads (text resp) with
          | Some j => Ret j
          | None => Raise JSONDecodeError
          end
        else Raise (RuntimeError (text resp))
    | inl e => Raise e
    end.
Proof.
  cbv [list_buckets mbind Prog_bind mret Prog_ret get_self requests_get
       request log raise response_json management].
  cbn [world self trace next_id].
  destruct (http_send (world s) _) as [[e|resp] w]; cbn [fst snd].
  - done.
  - destruct (is_2xx resp); [|done].
    by destruct (json_loads (text resp)).
Qed.
(** C8, as the code has it: [list_buckets] sends one GET with basic
    authentication to the buckets endpoint.  It returns exactly when the
    response has a 2xx status and its body parses as JSON, and then it
    returns the parsed body; on a 2xx response whose body does not parse it
    raises the decode error of the parser; on a response with any other
    status it raises an error whose detail is the body.  It leaves the
    container as it was, so a second call sends the same request again. *)
Theorem list_buckets_read_only (s : State W) :
  let rq := {| meth := GET;
               url := "http://" +:+ get_container_host_ip +:+ ":"
                      +:+ pretty (get_exposed_port 8091)
                      +:+ "/pools/default/buckets";
               data := [];
               auth := BasicAuth (username (self s)) (password (self s)) |} in
  let out := (http_send (world s) rq).1 in
  let r := list_buckets s in
  trace r.2 = trace s ++ [EvHttp rq out] /\
  (forall resp, out = inr resp -> 200 <= status_code resp < 300 ->
     r.1 = match json_loads (text resp) with
           | Some j => Ret j
           | None => Raise JSONDecodeError
           end) /\
  (forall resp, out = inr resp -> ~ (200 <= status_code resp < 300) ->
     r.1 = Raise (RuntimeError (text resp))) /\
  (forall j, r.1 = Ret j ->
     exists resp, out = inr resp /\ 200 <= status_code resp < 300 /\
                  json_loads (text resp) = Some j) /\
  self r.2 = self s /\ next_id r.2 = next_id s /\
  (exists out', trace (list_buckets r.2).2 = trace r.2 ++ [EvHttp rq out']) /\
  (forall j, r.1 = Ret j <->
     exists resp, out = inr resp /\ 200 <= status_code resp < 300 /\
                  json_loads (text resp) = Some j) /\
  (forall resp, out = inr resp -> 200 <= status_code resp < 300 ->
     json_loads (text resp) = None -> r.1 = Raise JSONDecodeError).
Proof.
  intros rq out r.
  pose proof (list_buckets_spec s) as H. cbv zeta in H.
  unfold management in H. fold rq in H. fold out in H. fold r in H.
  destruct H as (Htr & Hself & Hid & Hres).
  split_and!; try done.
  - intros resp Ho H2. apply is_2xx_range in H2. by rewrite Hres, Ho, H2.
  - intros resp Ho H2. rewrite Hres, Ho.
    destruct (is_2xx resp) eqn:E; [|done]. by apply is_2xx_range in E.
  - intros j Hj. rewrite Hres in Hj. destruct out as [e|resp]; [done|].
    exists resp. destruct (is_2xx resp) eqn:E; [|done].
    apply is_2xx_range in E. destruct (json_loads (text resp)); [|done].
    split_and!; (done || lia || congruence).
  - eexists. rewrite (proj1 (list_buckets_spec r.2)). by rewrite Hself.
  - intros j. rewrite Hres. split.
    + intros Hj. destruct out as [e|resp]; [done|].
      exists resp. destruct (is_2xx resp) eqn:E; [|done].
      apply is_2xx_range in E. destruct (json_loads (text resp)); [|done].
      split_and!; (done || lia || congruence).
    + intros (resp & -> & H2 & Hj). apply is_2xx_range in H2.
      by rewrite H2, Hj.
  - intros resp Ho H2 Hj. apply is_2xx_range in H2.
    by rewrite Hres, Ho, H2, Hj.
Qed.

(** C9, as the code has it: every call of [client] makes a new cluster
    object, with password authentication by the username and password of
    the container, a key-value timeout of 10 seconds, TCP keep-alive on and
    TLS verification off.  When the constructor of the object raises,
    [client] raises the same and does not wait.  Otherwise it waits up to
    15 seconds for the cluster to be ready: it returns the object when the
    wait returns and raises what the wait raises.  Nothing is kept between
    calls: two calls in a row that return give two different objects with
    the same settings. *)
Theorem client_fresh (s : State W) :
  let c := {| cluster_id := next_id s;
              connstr := get_connection_url;
              options := {| authenticator := (username (self s),
                                              password (self s));
                            kv_timeout := 10;
                            enable_tcp_keep_alive := true;
                            tls_verify := TLS_NONE |} |} in
  let made := cluster_connect (world s) (connstr c) (options c) in
  let res := (wait_until_ready made.2 c 15).1 in
  let r := client s in
  match made.1 with
  | Some e =>
      r.1 = Raise e /\ trace r.2 = trace s ++ [EvCluster c (Some e)]
  | None =>
      r.1 = match res with None => Ret c | Some e => Raise e end /\
      trace r.2 =
        trace s ++ [EvCluster c None; EvWaitReady (cluster_id c) 15 res]
  end /\
  self r.2 = self s /\
  (forall c1 c2, r.1 = Ret c1 -> (client r.2).1 = Ret c2 ->
     cluster_id c1 <> cluster_id c2 /\ options c2 = options c1 /\
     connstr c2 = connstr c1).
Proof.
  intros c made res r.
  destruct (client_spec s) as (Htr & Hres & Hid & Hself).
  cbv zeta in Htr, Hres. fold c in Htr, Hres.
  change (cluster_connect (world s) get_connection_url (options c))
    with made in Htr, Hres.
  fold res in Htr, Hres. fold r in Htr, Hres, Hid, Hself.
  split_and!; try done.
  - by destruct made.1.
  - intros c1 c2 H1 H2.
    apply client_returns in H1. apply client_returns in H2.
    fold r in H2. rewrite Hid, Hself in H2. subst c1 c2. cbn.
    split_and!; (done || lia).
Qed.

Lemma split_scheme_couchbases (host : string) :
  split_scheme ("couchbases://" +:+ host) = Some ("couchbases", host).
Proof. cbn. by destruct host. Qed.

(** C6: the connection URL has the scheme [couchbases] and, after [://],
    the host address of the container and nothing else; it does not depend
    on the options of the client.  The client that [client] builds is bound
    to this URL while its TLS verification is off. *)
Theorem connection_url_scheme :
  split_scheme get_connection_url = Some ("couchbases", get_container_host_ip) /\
  get_connection_url = "couchbases://" +:+ get_container_host_ip /\
  (forall (s : State W) c, (client s).1 = Ret c ->
     connstr c = get_connection_url /\ tls_verify (options c) = TLS_NONE).
Proof.
  split_and!.
  - apply split_scheme_couchbases.
  - done.
  - intros s c Hc. by rewrite (client_returns s c Hc).
Qed.

(** C5, as the code has it: each of the five configuration fields is the
    constructor argument when that is given and not the empty string, else
    the value of its COUCHBASE_* environment variable when that is set, else
    its hardcoded fallback; and no method changes the five fields after
    construction. *)
Theorem init_precedence (environ : gmap string string) (img : string)
    (ports : option (list Z)) (u p b sc co : option string) :
  let c := __init__ environ img ports u p b sc co in
  Forall (fun '(arg, field, key, fallback) =>
            (forall v : string, arg = Some v -> v <> "" -> field = v) /\
            (arg = None \/ arg = Some "" ->
               forall v : string, environ !! key = Some v -> field = v) /\
            (arg = None \/ arg = Some "" ->
               environ !! key = None -> field = fallback))
    [(u, username c, "COUCHBASE_USERNAME", "Administrator");
     (p, password c, "COUCHBASE_PASSWORD", "password");
     (b, bucket c, "COUCHBASE_BUCKET", "default");
     (sc, scope c, "COUCHBASE_SCOPE", "default");
     (co, collection c, "COUCHBASE_COLLECTION", "default")] /\
  (forall (s : State W) (fuel : nat),
     config (self (start fuel s).2) = config (self s) /\
     config (self (_connect fuel s).2) = config (self s) /\
     config (self (client s).2) = config (self s) /\
     config (self (list_buckets s).2) = config (self s)).
Proof.
  intros c. subst c.
  destruct (init_unfold environ img ports u p b sc co)
    as (c0 & -> & _ & _ & _ & Hu & Hp & Hb & Hs & Hc).
  destruct (add_ports_config
              (match ports with
               | None => default_ports
               | Some l => if decide (length l = 0%nat) then default_ports
                           else l
               end) c0) as (_ & -> & -> & -> & -> & -> & _).
  rewrite Hu, Hp, Hb, Hs, Hc. split.
  - repeat constructor.
    all: try (intros v Ha Hv; by apply py_or_given).
    all: try (intros Ha v Hv; rewrite (py_or_absent _ _ Ha);
              by apply environ_get_set).
    all: intros Ha Hv; rewrite (py_or_absent _ _ Ha);
         by apply environ_get_unset.
  - intros s fuel. split_and!.
    + apply start_config.
    + destruct (connect_quiet fuel s) as (ext & _ & -> & _). done.
    + by rewrite (proj2 (proj2 (proj2 (client_spec s)))).
    + by rewrite (proj1 (proj2 (list_buckets_spec s))).
Qed.
End Accessors.

(** ** A readiness wait without end *)

Section Unbounded.
Context {W : Type} `{RT : Runtime W}.

Lemma poll_never_ready (P : W -> Prop) (fuel : nat) (s : State W) :
  never_ready P -> P (world s) ->
  (poll fuel s).1 = Running /\
  exists outs : list Outcome,
    length outs = fuel /\ trace (poll fuel s).2 = trace s ++ poll_events outs.
Proof.
  intros (Hsleep & _ & Hget). revert s.
  induction fuel as [|fuel IH]; intros s HP.
  - split; [done|]. exists []. cbn. by rewrite app_nil_r.
  - rewrite poll_S. cbv zeta.
    destruct (Hget _ (Hsleep _ 1 HP)) as [Hre HP'].
    set (out := (http_send (sleep_for (world s) 1) settings_get).1) in *.
    set (s' := mkState _ _ _ _).
    destruct (IH s' HP') as (Hrun & outs & Hlen & Htr).
    assert (Hgo : (poll fuel s').1 = Running /\
              exists outs0 : list Outcome,
                length outs0 = S fuel /\
                trace (poll fuel s').2 = trace s ++ poll_events outs0).
    { split; [done|]. exists (out :: outs). split; [by cbn; f_equal|].
      rewrite Htr. subst s'. cbn [trace poll_events].
      by rewrite <- !(assoc_L (++)). }
    destruct out as [e|resp]; cbn in Hre.
    + by rewrite Hre.
    + apply negb_true_iff in Hre. by rewrite Hre.
Qed.

Lemma connect_wrapped_never_ready (P : W -> Prop) (fuel : nat) (s : State W) :
  never_ready P -> P (world s) ->
  (_connect_wrapped fuel s).1 = Running /\
  exists outs : list Outcome,
    length outs = fuel /\
    trace (_connect_wrapped fuel s).2 =
      trace s ++ EvLogs "and logs available in" None :: poll_events outs.
Proof.
  intros Hnever HP. unfold _connect_wrapped.
  unfold mbind, Prog_bind, do_wait_for_logs.
  destruct (proj1 (proj2 Hnever) _ HP) as [Hnone HP'].
  destruct (wait_for_logs (world s) _) as [res w]. cbn [fst snd] in *.
  subst res. set (s1 := log _ _).
  destruct (poll_never_ready P fuel s1) as (Hrun & outs & Hlen & Htr);
    [done|done|].
  destruct (poll fuel s1) as [r s2]. cbn [fst snd] in *. subst r.
  split; [done|]. exists outs. split; [done|].
  cbn [snd]. rewrite Htr. subst s1. unfold log. cbn [trace].
  by rewrite <- (assoc_L (++)).
Qed.

Lemma connect_never_ready (P : W -> Prop) (fuel : nat) (s : State W) :
  never_ready P -> (0 < max_tries)%nat -> P (world s) ->
  (_connect fuel s).1 = Running /\
  exists outs : list Outcome,
    length outs = fuel /\
    trace (_connect fuel s).2 =
      trace s ++ EvLogs "and logs available in" None :: poll_events outs.
Proof.
  intros Hnever Htries HP.
  destruct (connect_wrapped_never_ready P fuel s Hnever HP) as [Hrun Houts].
  rewrite connect_decorated; [done|done|]. intros e. by rewrite Hrun.
Qed.

(** C4, as the code has it: there is no deadline.  [_connect] takes none.
    When the log marker is found, the decorator makes at least one attempt
    ([max_tries] is positive) and the management endpoint answers every
    readiness GET with a response that is not 2xx or with a connection
    error ([never_ready]), the wait does not end: after any number of
    rounds the loop of the method, and with it the decorated method, is
    still polling, one GET per round, and has raised no timeout error. *)
Theorem connect_unbounded (P : W -> Prop) (fuel : nat) (s : State W) :
  never_ready P -> (0 < max_tries)%nat -> P (world s) ->
  (_connect_wrapped fuel s).1 = Running /\
  (_connect fuel s).1 = Running /\
  (_connect fuel s).1 <> Raise TimeoutError /\
  exists outs : list Outcome,
    length outs = fuel /\
    trace (_connect fuel s).2 =
      trace s ++ EvLogs "and logs available in" None :: poll_events outs.
Proof.
  intros Hnever Htries HP.
  destruct (connect_never_ready P fuel s Hnever Htries HP) as (Hrun & Houts).
  destruct (connect_wrapped_never_ready P fuel s Hnever HP) as (Hrun' & _).
  split_and!; [done|done|by rewrite Hrun|done].
Qed.
End Unbounded.

(** ** Runs of the scripted runtime *)

Lemma scripted_never_ready :
  never_ready (fun w => Scripted.script w = [] /\ Scripted.logs_fail w = false).
Proof.
  split_and!.
  - by intros w secs.
  - intros [sc lf cf] [Hs Hl]; cbn in *. by subst.
  - intros [sc lf cf] [Hs Hl]; cbn in *. by subst.
Qed.

(** The endpoint that answers 503 for ever: after 25 rounds the wait is
    still running. *)
Lemma connect_unbounded_witness :
  (_connect_wrapped 25 Scripted.down).1 = Running /\
  (_connect 25 Scripted.down).1 = Running /\
  (_connect 25 Scripted.down).1 <> Raise TimeoutError /\
  exists outs : list Outcome,
    length outs = 25%nat /\
    trace (_connect 25 Scripted.down).2 =
      trace Scripted.down
      ++ EvLogs "and logs available in" None :: poll_events outs.
Proof.
  apply (connect_unbounded
           (fun w => Scripted.script w = [] /\ Scripted.logs_fail w = false)).
  - exact scripted_never_ready.
  - cbn. lia.
  - by cbn.
Defined.

(** C4 fails on the code: against an endpoint that answers 503 for ever,
    no amount of polling makes the readiness wait end with an error, a
    timeout error included. *)
Lemma connect_hangs :
  ~ exists (fuel : nat) (e : Exc),
      (_connect fuel Scripted.down).1 = Raise e.
Proof.
  intros (fuel & e & He).
  destruct (connect_never_ready
              (fun w => Scripted.script w = [] /\ Scripted.logs_fail w = false)
              fuel Scripted.down scripted_never_ready) as [Hrun _].
  - cbn. lia.
  - by cbn.
  - by rewrite Hrun in He.
Qed.

(** C8 fails on the code for a 2xx response whose body is not JSON: a
    200 with an empty body makes [list_buckets] raise the decode error
    instead of returning. *)
Lemma list_buckets_empty_body :
  let s := Scripted.init (Scripted.healthy [Scripted.resp 200 ""])
             Scripted.container in
  (http_send (world s)
     (mkRequest GET "http://localhost:8091/pools/default/buckets" []
        (BasicAuth "Administrator" "password"))).1 = Scripted.resp 200 "" /\
  (list_buckets s).1 = Raise JSONDecodeError /\
  is_Ret (list_buckets s).1 = false.
Proof. by vm_compute. Qed.

(** C9 fails on the code when the constructor of the cluster object
    raises: [client] raises the same at once and never waits for the
    cluster to be ready. *)
Lemma client_constructor_raises :
  let s := Scripted.init (Scripted.mkWorld [] false false true)
             Scripted.container in
  (client s).1 = Raise (OtherError "AuthenticationException") /\
  Forall (fun e => match e with EvWaitReady _ _ _ => False | _ => True end)
         (trace (client s).2) /\
  length (trace (client s).2) = 1%nat.
Proof.
  vm_compute. split_and!; try done. by repeat constructor.
Qed.

(** C5 fails on the code for an argument that is given as the empty
    string: it counts as absent, and the fallback is taken. *)
Lemma init_empty_argument :
  let c := __init__ ∅ "couchbase:latest" None (Some "") None None None None in
  username c = "Administrator" /\ username c <> "".
Proof. by vm_compute. Qed.

(** A run that comes up: the wait gets over a refused connection and a 404,
    and [start] returns after the four POSTs. *)
Example start_comes_up :
  let r := start 5 Scripted.comes_up in
  is_Ret r.1 = true /\
  filter (fun e => is_post e = true) (trace r.2) =
    zip_with EvHttp (bootstrap_requests Scripted.container)
      [Scripted.resp 200 ""; Scripted.resp 202 ""; Scripted.resp 200 "";
       Scripted.resp 200 ""].
Proof. by vm_compute. Qed.

(** With rounds to spare the result is the same; with too few the wait is
    still running. *)
Example connect_comes_up :
  (_connect 3 Scripted.comes_up).1 = Ret tt /\
  (_connect 30 Scripted.comes_up).1 = Ret tt /\
  (_connect 2 Scripted.comes_up).1 = Running.
Proof. by vm_compute. Qed.

(** A failed credentials call is the last request of [start]. *)
Example start_credentials_refused :
  let s := Scripted.init
             (Scripted.healthy [Scripted.resp 200 ""; Scripted.resp 401 "denied"])
             Scripted.container in
  let r := start 5 s in
  r.1 = Raise (RuntimeError "denied") /\
  filter (fun e => is_post e = true) (trace r.2) =
    [EvHttp (credentials_request Scripted.container) (Scripted.resp 401 "denied")].
Proof. by vm_compute. Qed.

(** * Further properties *)

(** ** Configuration of the container environment *)

Section Environment.
Context {W : Type} `{RT : Runtime W}.

(** X1: [_configure] always returns, and sets the three variables
    COUCHBASE_USERNAME, COUCHBASE_PASSWORD and COUCHBASE_BUCKET of the
    container to the configured values.  Every other variable keeps its
    value: the scope and the collection are not exported.  Nothing else
    changes, no event happens, and a second call changes nothing more. *)
Theorem configure_env (s : State W) :
  let s' := (_configure s).2 in
  let c := self s in
  (_configure s).1 = Ret tt /\
  env (self s') !! "COUCHBASE_USERNAME" = Some (username c) /\
  env (self s') !! "COUCHBASE_PASSWORD" = Some (password c) /\
  env (self s') !! "COUCHBASE_BUCKET" = Some (bucket c) /\
  (forall k : string,
     k <> "COUCHBASE_USERNAME" -> k <> "COUCHBASE_PASSWORD" ->
     k <> "COUCHBASE_BUCKET" -> env (self s') !! k = env c !! k) /\
  config (self s') = config c /\
  exposed (self s') = exposed c /\ bindings (self s') = bindings c /\
  image (self s') = image c /\
  trace s' = trace s /\ world s' = world s /\ next_id s' = next_id s /\
  (_configure s').2 = s'.
Proof.
  intros s' c.
  destruct (configure_spec s) as (Hret & Htr & Hid & Hw & Hcfg & Henv).
  fold s' in Htr, Hid, Hw, Hcfg, Henv. fold c in Henv.
  split_and!; try done.
  - rewrite Henv. by rewrite lookup_insert_ne, lookup_insert_ne,
      lookup_insert_eq.
  - rewrite Henv. by rewrite lookup_insert_ne, lookup_insert_eq.
  - rewrite Henv. by rewrite lookup_insert_eq.
  - intros k Hu Hp Hb. rewrite Henv.
    by rewrite !lookup_insert_ne.
  - subst s'. cbv [_configure mbind Prog_bind get_self modify_self with_env].
    cbn [fst snd self world trace next_id username password bucket scope
         collection env exposed bindings image].
    f_equal. f_equal. apply map_eq. intros k.
    destruct (decide (k = "COUCHBASE_BUCKET")) as [->|Hb].
    { by rewrite !lookup_insert_eq. }
    rewrite (lookup_insert_ne _ "COUCHBASE_BUCKET" k) by done.
    destruct (decide (k = "COUCHBASE_PASSWORD")) as [->|Hp].
    { rewrite lookup_insert_eq.
      by rewrite lookup_insert_ne, lookup_insert_eq. }
    rewrite (lookup_insert_ne _ "COUCHBASE_PASSWORD" k) by done.
    destruct (decide (k = "COUCHBASE_USERNAME")) as [->|Hu].
    { rewrite lookup_insert_eq.
      by rewrite lookup_insert_ne, lookup_insert_ne, lookup_insert_eq. }
    rewrite (lookup_insert_ne _ "COUCHBASE_USERNAME" k) by done.
    by rewrite !lookup_insert_ne.
Qed.
End Environment.

(** ** The stages of [start] *)

Section Stages.
Context {W : Type} `{RT : Runtime W}.

(** X2: the first thing [start] does to the outside world is to hand the
    container to the runtime, and by then the environment of the container
    carries the username, the password and the bucket.  When the runtime
    refuses to start it, [start] raises the same exception and nothing
    more happens: no wait, no request.  When [start] returns, it returns
    the container itself. *)
Theorem start_hands_over (fuel : nat) (s : State W) :
  let r := start fuel s in
  let c' := self (_configure s).2 in
  let res := (runtime_start (world s) c').1 in
  env c' !! "COUCHBASE_USERNAME" = Some (username (self s)) /\
  env c' !! "COUCHBASE_PASSWORD" = Some (password (self s)) /\
  env c' !! "COUCHBASE_BUCKET" = Some (bucket (self s)) /\
  (exists rest, trace r.2 = trace s ++ EvStart c' res :: rest /\
     (forall e, res = Some e -> r.1 = Raise e /\ rest = [])) /\
  match r.1 with
  | Ret c => c = self r.2 /\ c = c'
  | _ => True
  end.
Proof.
  intros r c' res.
  destruct (configure_spec s) as (_ & Htr0 & _ & Hw0 & _ & Henv).
  fold c' in Henv.
  split_and!.
  - rewrite Henv. by rewrite lookup_insert_ne, lookup_insert_ne,
      lookup_insert_eq.
  - rewrite Henv. by rewrite lookup_insert_ne, lookup_insert_eq.
  - rewrite Henv. by rewrite lookup_insert_eq.
  - subst r. rewrite start_stages.
    pose proof (super_start_spec (_configure s).2) as (Hs1 & Hs2 & _ & Hs3).
    cbv zeta in Hs1, Hs3. rewrite Hw0, Htr0 in *. fold c' res in Hs1, Hs3.
    destruct (super_start (_configure s).2) as [r1 s1]. cbn [fst snd] in *.
    destruct res as [e|]; subst r1.
    { exists []. split; [done|]. by intros e' [= <-]. }
    destruct (connect_quiet fuel s1) as (ext & Hq1 & _).
    destruct (_connect fuel s1) as [r2 s2]. cbn [fst snd] in *.
    assert (Hpre : trace s2 = trace s ++ EvStart c' None :: ext).
    { by rewrite Hq1, Hs1, <- (assoc_L (++)). }
    destruct r2 as [[]|e|]; [|by exists ext|by exists ext].
    destruct (run_posts_spec (bootstrap_requests (self s)) s2)
      as (outs & Htr & _).
    exists (ext ++ zip_with EvHttp (bootstrap_requests (self s)) outs).
    split; [|done].
    assert (Hall : trace (run_posts (bootstrap_requests (self s)) s2).2 =
              trace s ++ EvStart c' None
                :: ext ++ zip_with EvHttp (bootstrap_requests (self s)) outs).
    { rewrite Htr, Hpre. by rewrite <- !(assoc_L (++)). }
    by destruct (run_posts _ s2) as [[[]|e|] s3].
  - pose proof (start_self fuel s) as Hself. fold r c' in Hself.
    assert (Hret : forall c, r.1 = Ret c -> c = self r.2).
    { subst r. rewrite start_stages.
      destruct (super_start _) as [[[]|e|] s1]; try done.
      destruct (_connect fuel s1) as [[[]|e|] s2]; try done.
      destruct (run_posts _ s2) as [[[]|e|] s3]; try done.
      by intros c [= <-]. }
    destruct r.1 as [c|e|]; [|done|done].
    split; [by apply Hret|]. rewrite <- Hself. by apply Hret.
Qed.

(** X8: construction followed by [_configure].  A new container has no
    environment of its own; after [_configure] it has exactly the three
    variables COUCHBASE_USERNAME, COUCHBASE_PASSWORD and COUCHBASE_BUCKET.
    A variable of the host environment is handed on to the container when
    no argument is given, and an argument that is given and not empty goes
    before it.  COUCHBASE_SCOPE and COUCHBASE_COLLECTION of the host are
    read by the constructor but never set in the container. *)
Theorem init_then_configure (environ : gmap string string) (img : string)
    (ports : option (list Z)) (u p b sc co : option string)
    (w : W) (tr : list Event) (id : nat) :
  let c := __init__ environ img ports u p b sc co in
  let c' := self (_configure (mkState w c tr id)).2 in
  env c = ∅ /\
  env c' = <["COUCHBASE_BUCKET" := bucket c]>
             (<["COUCHBASE_PASSWORD" := password c]>
                ({["COUCHBASE_USERNAME" := username c]})) /\
  (forall k, is_Some (env c' !! k) <->
     k = "COUCHBASE_USERNAME" \/ k = "COUCHBASE_PASSWORD" \/
     k = "COUCHBASE_BUCKET") /\
  (forall v, u = None -> environ !! "COUCHBASE_USERNAME" = Some v ->
     env c' !! "COUCHBASE_USERNAME" = Some v) /\
  (forall v, p = None -> environ !! "COUCHBASE_PASSWORD" = Some v ->
     env c' !! "COUCHBASE_PASSWORD" = Some v) /\
  (forall v, b = None -> environ !! "COUCHBASE_BUCKET" = Some v ->
     env c' !! "COUCHBASE_BUCKET" = Some v) /\
  (forall v, u = Some v -> v <> "" ->
     env c' !! "COUCHBASE_USERNAME" = Some v) /\
  (forall v, sc = None -> environ !! "COUCHBASE_SCOPE" = Some v ->
     scope c' = v /\ env c' !! "COUCHBASE_SCOPE" = None) /\
  (forall v, co = None -> environ !! "COUCHBASE_COLLECTION" = Some v ->
     collection c' = v /\ env c' !! "COUCHBASE_COLLECTION" = None).
Proof.
  intros c c'.
  assert (Hfields : env c = ∅ /\
    username c = py_or u (environ_get environ "COUCHBASE_USERNAME" "Administrator") /\
    password c = py_or p (environ_get environ "COUCHBASE_PASSWORD" "password") /\
    bucket c = py_or b (environ_get environ "COUCHBASE_BUCKET" "default") /\
    scope c = py_or sc (environ_get environ "COUCHBASE_SCOPE" "default") /\
    collection c = py_or co (environ_get environ "COUCHBASE_COLLECTION" "default")).
  { subst c.
    destruct (init_unfold environ img ports u p b sc co)
      as (c0 & -> & _ & _ & He & Hu & Hp & Hb & Hs & Hc).
    destruct (add_ports_config
                (match ports with
                 | None => default_ports
                 | Some l => if decide (length l = 0%nat) then default_ports
                             else l
                 end) c0) as (_ & -> & -> & -> & -> & -> & ->).
    by rewrite He, Hu, Hp, Hb, Hs, Hc. }
  destruct Hfields as (He & Hu & Hp & Hb & Hs & Hc).
  assert (Henv : env c' = <["COUCHBASE_BUCKET" := bucket c]>
             (<["COUCHBASE_PASSWORD" := password c]>
                ({["COUCHBASE_USERNAME" := username c]}))).
  { subst c'. rewrite (proj2 (proj2 (proj2 (proj2 (proj2
      (configure_spec (mkState w c tr id))))))). cbn [self].
    by rewrite He, insert_empty. }
  assert (Hcfg : config c' = config c).
  { subst c'. apply (configure_spec (mkState w c tr id)). }
  assert (Hlook : forall k, env c' !! k =
            if decide (k = "COUCHBASE_BUCKET") then Some (bucket c)
            else if decide (k = "COUCHBASE_PASSWORD") then Some (password c)
            else if decide (k = "COUCHBASE_USERNAME") then Some (username c)
            else None).
  { intros k. rewrite Henv.
    destruct (decide (k = "COUCHBASE_BUCKET")) as [->|Hkb].
    { by rewrite lookup_insert_eq. }
    rewrite lookup_insert_ne by done.
    destruct (decide (k = "COUCHBASE_PASSWORD")) as [->|Hkp].
    { by rewrite lookup_insert_eq. }
    rewrite lookup_insert_ne by done.
    destruct (decide (k = "COUCHBASE_USERNAME")) as [->|Hku].
    { by rewrite lookup_singleton_eq. }
    by rewrite lookup_singleton_ne. }
  split_and!; try done.
  - intros k. rewrite Hlook.
    destruct (decide (k = "COUCHBASE_BUCKET")) as [->|Hkb].
    { split; [by auto|by eexists]. }
    destruct (decide (k = "COUCHBASE_PASSWORD")) as [->|Hkp].
    { split; [by auto|by eexists]. }
    destruct (decide (k = "COUCHBASE_USERNAME")) as [->|Hku].
    { split; [by auto|by eexists]. }
    split; [by intros [? [=]]|by intros [|[|]]].
  - intros v -> Hv. rewrite Hlook. cbn. rewrite Hu. cbn.
    by rewrite (environ_get_set _ _ _ _ Hv).
  - intros v -> Hv. rewrite Hlook. cbn. rewrite Hp. cbn.
    by rewrite (environ_get_set _ _ _ _ Hv).
  - intros v -> Hv. rewrite Hlook. cbn. rewrite Hb. cbn.
    by rewrite (environ_get_set _ _ _ _ Hv).
  - intros v -> Hv. rewrite Hlook. cbn. rewrite Hu.
    by rewrite (py_or_given (Some v) _ v).
  - intros v -> Hv. split; [|by rewrite Hlook].
    replace (scope c') with (scope c)
      by (unfold config in Hcfg; congruence).
    rewrite Hs. cbn.
    by rewrite (environ_get_set _ _ _ _ Hv).
  - intros v -> Hv. split; [|by rewrite Hlook].
    replace (collection c') with (collection c)
      by (unfold config in Hcfg; congruence).
    rewrite Hc. cbn.
    by rewrite (environ_get_set _ _ _ _ Hv).
Qed.
End Stages.

(** ** The readiness loop comes back *)

Section Liveness.
Context {W : Type} `{RT : Runtime W}.

Lemma poll_round_retried (fuel : nat) (s : State W) :
  retried (round_answer (world s)) = true ->
  poll (S fuel) s =
  poll fuel (mkState (round_world (world s)) (self s)
               ((trace s ++ [EvSleep 1])
                ++ [EvHttp settings_get (round_answer (world s))])
               (next_id s)).
Proof.
  intros Hre. rewrite poll_S. cbv zeta.
  unfold round_answer, round_world in *.
  destruct (http_send (sleep_for (world s) 1) settings_get).1 as [e|resp];
    cbn in Hre.
  - by rewrite Hre.
  - apply negb_true_iff in Hre. by rewrite Hre.
Qed.

(** X3: the readiness loop comes back.  When the first [k] rounds meet
    answers that make the loop go on and round [k+1] is answered with 2xx,
    the loop returns in round [k+1], however many more rounds it is
    allowed: it has slept [k+1] seconds, sent [k+1] GETs, and left the
    container untouched. *)
Theorem poll_returns (k spare : nat) (s : State W) (resp : Response) :
  Forall (fun o => retried o = true) (round_answers k (world s)) ->
  round_answer (after_rounds k (world s)) = inr resp ->
  is_2xx resp = true ->
  let r := poll (S k + spare) s in
  r.1 = Ret tt /\
  world r.2 = after_rounds (S k) (world s) /\
  trace r.2 = trace s ++ poll_events (round_answers (S k) (world s)) /\
  length (round_answers (S k) (world s)) = S k /\
  self r.2 = self s.
Proof.
  revert s. induction k as [|k IH]; intros s Hpre Hlast H2 r; subst r.
  - cbn [after_rounds round_answers Nat.add] in *.
    rewrite poll_S. cbv zeta. fold (round_answer (world s)).
    fold (round_world (world s)). rewrite Hlast, H2. cbn.
    rewrite <- (assoc_L (++)). by split_and!.
  - cbn [after_rounds round_answers] in Hpre, Hlast.
    inversion Hpre as [|o l Hre Hrest]; subst.
    change (S (S k) + spare)%nat with (S (S k + spare)).
    rewrite (poll_round_retried _ s Hre).
    set (s' := mkState _ _ _ _).
    specialize (IH s' Hrest Hlast H2). cbv zeta in IH.
    destruct IH as (Hr & Hw & Htr & Hlen & Hself).
    rewrite Hr, Hw, Htr, Hself. subst s'.
    cbn [world self trace after_rounds round_answers poll_events length].
    rewrite <- !(assoc_L (++)). cbn [app]. split_and!; try done.
    cbn [length round_answers world] in Hlen. by f_equal.
Qed.

Lemma poll_more_fuel (n m : nat) (s : State W) :
  (poll n s).1 <> Running -> (n <= m)%nat -> poll m s = poll n s.
Proof.
  revert m s. induction n as [|n IH]; intros m s Hn Hle; [done|].
  destruct m as [|m]; [lia|].
  rewrite poll_S in Hn. rewrite !poll_S. cbv zeta in *.
  set (s' := mkState _ _ _ _) in *.
  destruct (http_send (sleep_for (world s) 1) settings_get).1 as [e|resp].
  - destruct (bool_decide (e = ConnectionError)); [|done].
    apply IH; [done|lia].
  - destruct (is_2xx resp); [done|]. apply IH; [done|lia].
Qed.

Lemma connect_wrapped_more_fuel (n m : nat) (s : State W) :
  (_connect_wrapped n s).1 <> Running -> (n <= m)%nat ->
  _connect_wrapped m s = _connect_wrapped n s.
Proof.
  unfold _connect_wrapped, mbind, Prog_bind. intros Hn Hle.
  destruct (do_wait_for_logs _ s) as [[[]|e|] s1]; try done.
  by apply poll_more_fuel.
Qed.

Lemma decorated_more_fuel {A} (f g : Prog W A) (tries : nat) (s : State W) :
  (forall s, (f s).1 <> Running -> g s = f s) ->
  (wait_container_is_ready tries f s).1 <> Running ->
  wait_container_is_ready tries g s = wait_container_is_ready tries f s.
Proof.
  intros Hfg. revert s. induction tries as [|tries IH]; intros s Hn; [done|].
  cbn [wait_container_is_ready] in *. unfold try_except in *.
  assert (Hf : (f s).1 <> Running).
  { intros Hf. apply Hn. by destruct (f s) as [[a|e|] s1]. }
  rewrite (Hfg s Hf).
  destruct (f s) as [[a|e|] s1]; try done.
  destruct (transient e); [|done].
  unfold mbind, Prog_bind in *.
  destruct (sleep sleep_time s1) as [[[]|e'|] s2]; try done.
  by apply IH.
Qed.

(** The number of rounds allowed to the readiness loop is a means of the
    model only.  It does not matter once [start] has come to an end: with
    more rounds allowed the run is the same. *)
Lemma start_more_fuel (n m : nat) (s : State W) :
  (start n s).1 <> Running -> (n <= m)%nat -> start m s = start n s.
Proof.
  intros Hn Hle. rewrite start_stages in Hn. rewrite !start_stages.
  destruct (super_start (_configure s).2) as [[[]|e|] s1]; try done.
  assert (Hc : _connect m s1 = _connect n s1).
  { unfold _connect. apply decorated_more_fuel.
    - intros s' Hs'. by apply connect_wrapped_more_fuel.
    - intros Hc. apply Hn. unfold _connect.
      by destruct (wait_container_is_ready _ _ s1) as [[[]|e|] s2]. }
  by rewrite Hc.
Qed.
End Liveness.

(** The server that comes up is ready in its third round. *)
Lemma poll_returns_witness :
  let r := poll (3 + 4) Scripted.comes_up in
  r.1 = Ret tt /\
  world r.2 = after_rounds 3 (world Scripted.comes_up) /\
  trace r.2 =
    trace Scripted.comes_up
    ++ poll_events (round_answers 3 (world Scripted.comes_up)) /\
  length (round_answers 3 (world Scripted.comes_up)) = 3%nat /\
  self r.2 = self Scripted.comes_up.
Proof.
  apply (poll_returns 2 4 Scripted.comes_up (mkResponse 200 "")).
  - by repeat constructor.
  - reflexivity.
  - reflexivity.
Defined.

(** Three rounds are enough for the server that comes up; ten change
    nothing. *)
Example start_more_fuel_comes_up :
  start 10 Scripted.comes_up = start 3 Scripted.comes_up.
Proof.
  apply start_more_fuel.
  - by vm_compute.
  - lia.
Qed.

(** ** How [start] fails, and what comes after it *)

Section Failure.
Context {W : Type} `{RT : Runtime W}.

(** A run of bootstrap calls that raises does so with the error of the
    call it sent last. *)
Lemma run_posts_raise (rqs : list Request) (s : State W) (e : Exc) :
  (run_posts rqs s).1 = Raise e ->
  exists (evs : list Event) (rq : Request) (o : Outcome),
    trace (run_posts rqs s).2 = trace s ++ evs ++ [EvHttp rq o] /\
    rq ∈ rqs /\ ok o = false /\ e = error_of o.
Proof.
  revert s. induction rqs as [|rq rqs IH]; intros s; [done|].
  cbn [run_posts]. unfold mbind, Prog_bind.
  pose proof (post_step_spec rq s) as (Htr & _ & _ & _ & Hres).
  cbv zeta in Htr, Hres.
  destruct (post_step rq s) as [[[]|e'|] s1]; cbn [fst snd] in *; [| |done].
  - intros Hr. destruct (IH s1 Hr) as (evs & rq' & o & Htr' & Hin & Hok & He).
    exists (EvHttp rq (http_send (world s) rq).1 :: evs), rq', o.
    rewrite Htr', Htr, <- (assoc_L (++)). split_and!; try done.
    apply elem_of_cons. by right.
  - intros [= <-].
    exists [], rq, (http_send (world s) rq).1. rewrite Htr.
    split_and!; try done.
    + apply elem_of_cons. by left.
    + destruct (http_send (world s) rq).1 as [e|resp]; [done|]. cbn.
      destruct (is_2xx resp); [discriminate Hres|done].
    + destruct (http_send (world s) rq).1 as [e|resp]; cbn.
      * by injection Hres.
      * destruct (is_2xx resp); [discriminate Hres|by injection Hres].
Qed.


(** The POSTs of a run of [start] are its bootstrap requests. *)
Lemma start_posts (fuel : nat) (s : State W) :
  exists ext : list Event,
    trace (start fuel s).2 = trace s ++ ext /\
    forall rq o, EvHttp rq o ∈ ext -> meth rq = POST ->
                 rq ∈ bootstrap_requests (self s).
Proof.
  destruct (start_shape fuel s)
    as (_ & Hs1 & (ext & Hq1 & Hq3 & _) & Hcase).
  set (st := super_start (_configure s).2) in *.
  set (cn := _connect fuel st.2) in *.
  set (ev := EvStart _ _) in Hs1.
  assert (Hquiet : forall evs : list Event,
            Forall (fun e => is_post e = false) evs ->
            forall rq o, EvHttp rq o ∈ evs -> meth rq = POST -> False).
  { intros evs Hall rq o Hin Hm.
    rewrite Forall_forall in Hall. specialize (Hall _ Hin). cbn in Hall.
    by rewrite Hm, bool_decide_eq_false in Hall. }
  assert (Hcn : trace cn.2 = trace s ++ ev :: ext).
  { by rewrite Hq1, Hs1, <- (assoc_L (++)). }
  assert (Hq : Forall (fun e => is_post e = false) (ev :: ext))
    by by constructor.
  destruct st.1 as [[]|e|].
  - destruct cn.1 as [[]|e|].
    + destruct Hcase as (Htr & _).
      exists ((ev :: ext) ++ zip_with EvHttp (bootstrap_requests (self s))
                (post_outcomes (bootstrap_requests (self s)) (world cn.2))).
      split; [by rewrite Htr, Hcn, <- (assoc_L (++))|].
      intros rq o [Hin|Hin]%elem_of_app Hm.
      * by destruct (Hquiet _ Hq rq o Hin Hm).
      * apply elem_of_lookup_zip_with in Hin as (i & rq' & o' & [= -> ->] & Hi & _).
        by eapply list_elem_of_lookup_2.
    + exists (ev :: ext). rewrite Hcase. split; [done|].
      intros rq o Hin Hm. by destruct (Hquiet _ Hq rq o Hin Hm).
    + exists (ev :: ext). rewrite Hcase. split; [done|].
      intros rq o Hin Hm. by destruct (Hquiet _ Hq rq o Hin Hm).
  - exists [ev]. rewrite Hcase. split; [done|].
    intros rq o Hin Hm.
    by destruct (Hquiet [ev] ltac:(by constructor) rq o Hin Hm).
  - exists [ev]. rewrite Hcase. split; [done|].
    intros rq o Hin Hm.
    by destruct (Hquiet [ev] ltac:(by constructor) rq o Hin Hm).
Qed.

(** X6: what was set is what is used.  Whatever username and password a
    POST sent by [start] carries in its form fields [username] and
    [password], a call of [list_buckets] after [start] authenticates with
    exactly them, and a client that [client] then returns is built with
    exactly them. *)
Theorem start_then_access (fuel : nat) (s : State W) :
  let s' := (start fuel s).2 in
  exists ext : list Event,
    trace s' = trace s ++ ext /\
    forall rq o (u p : string) (rest : list (string * PyVal)),
      EvHttp rq o ∈ ext -> meth rq = POST ->
      data rq = ("username", PStr u) :: ("password", PStr p) :: rest ->
      (exists out, trace (list_buckets s').2 = trace s' ++
         [EvHttp {| meth := GET;
                    url := "http://" +:+ get_container_host_ip +:+ ":"
                           +:+ pretty (get_exposed_port 8091)
                           +:+ "/pools/default/buckets";
                    data := [];
                    auth := BasicAuth u p |} out]) /\
      (forall cl, (client s').1 = Ret cl ->
                  authenticator (options cl) = (u, p)).
Proof.
  intros s'.
  destruct (start_posts fuel s) as (ext & Htr & Hposts). fold s' in Htr.
  exists ext. split; [done|].
  intros rq o u p rest Hin Hm Hdata.
  assert (Hcfg : config (self s') = config (self s)) by apply start_config.
  unfold config in Hcfg. injection Hcfg as Hu Hp _ _ _.
  assert (Hup : u = username (self s') /\ p = password (self s')).
  { specialize (Hposts rq o Hin Hm). rewrite Hu, Hp.
    unfold bootstrap_requests in Hposts.
    rewrite !elem_of_cons, elem_of_nil in Hposts.
    destruct Hposts as [->|[->|[->|[->|[]]]]]; cbn in Hdata;
      by injection Hdata. }
  destruct Hup as [-> ->]. split.
  - eexists. by rewrite (proj1 (list_buckets_spec s')).
  - intros cl Hcl. by rewrite (client_returns s' cl Hcl).
Qed.
End Failure.

(** ** Endpoints and ports *)

Lemma string_app_assoc (a b c : string) : (a +:+ b) +:+ c = a +:+ b +:+ c.
Proof.
  induction a as [|x a IH]; [done|].
  change (String x ((a +:+ b) +:+ c) = String x (a +:+ b +:+ c)).
  by f_equal.
Qed.

Lemma string_prefix_app (a b : string) : String.prefix a (a +:+ b) = true.
Proof.
  induction a as [|x a IH].
  - by destruct b.
  - change (String.prefix (String x a) (String x (a +:+ b)) = true).
    cbn [String.prefix]. destruct (ascii_dec x x); [done|congruence].
Qed.

Section Endpoints.
Context {W : Type} `{RT : Runtime W}.

Lemma poll_one_trace (s : State W) :
  trace (poll 1 s).2 =
  trace s ++ [EvSleep 1;
              EvHttp settings_get
                (http_send (sleep_for (world s) 1) settings_get).1].
Proof.
  rewrite poll_S. cbv zeta.
  destruct (http_send (sleep_for (world s) 1) settings_get).1 as [e|resp].
  - destruct (bool_decide (e = ConnectionError)); cbn;
      by rewrite <- (assoc_L (++)).
  - destruct (is_2xx resp); cbn; by rewrite <- (assoc_L (++)).
Qed.

(** X7: the endpoints that the methods call nest the way the resources do.
    A round of the readiness loop GETs the URL that
    [set_admin_credentials] POSTs to, and [list_buckets] GETs the URL that
    [_create_bucket] POSTs to.  The URL that [_create_scope] POSTs to is
    that of [_create_bucket] followed by the bucket name and [/scopes]; the
    URL that [_create_collection] POSTs to is that of [_create_scope]
    followed by the scope name and [/collections].  The names go into the
    path as they are. *)
Theorem endpoints_nest (s : State W) :
  exists (g cr b sc co l : Request) (og ocr ob osc oco ol : Outcome),
    trace (poll 1 s).2 = trace s ++ [EvSleep 1; EvHttp g og] /\
    trace (set_admin_credentials s).2 = trace s ++ [EvHttp cr ocr] /\
    trace (_create_bucket s).2 = trace s ++ [EvHttp b ob] /\
    trace (_create_scope s).2 = trace s ++ [EvHttp sc osc] /\
    trace (_create_collection s).2 = trace s ++ [EvHttp co oco] /\
    trace (list_buckets s).2 = trace s ++ [EvHttp l ol] /\
    meth g = GET /\ meth l = GET /\
    url cr = url g /\
    url l = url b /\
    url sc = url b +:+ "/" +:+ bucket (self s) +:+ "/scopes" /\
    url co = url sc +:+ "/" +:+ scope (self s) +:+ "/collections" /\
    String.prefix (url b) (url sc) = true /\
    String.prefix (url sc) (url co) = true.
Proof.
  set (c := self s).
  assert (Hscope : url (scope_request c) =
            url (bucket_request c) +:+ "/" +:+ bucket c +:+ "/scopes").
  { cbn [url scope_request bucket_request]. unfold management.
    by rewrite !string_app_assoc. }
  assert (Hcoll : url (collection_request c) =
            url (scope_request c) +:+ "/" +:+ scope c +:+ "/collections").
  { cbn [url scope_request collection_request]. unfold management.
    by rewrite !string_app_assoc. }
  exists settings_get, (credentials_request c), (bucket_request c),
    (scope_request c), (collection_request c).
  eexists. do 6 eexists.
  split_and!.
  - apply poll_one_trace.
  - rewrite set_admin_credentials_step. apply post_step_spec.
  - rewrite create_bucket_step. apply post_step_spec.
  - rewrite create_scope_step. apply post_step_spec.
  - rewrite create_collection_step. apply post_step_spec.
  - apply list_buckets_spec.
  - done.
  - done.
  - done.
  - done.
  - done.
  - done.
  - rewrite Hscope. apply string_prefix_app.
  - rewrite Hcoll. apply string_prefix_app.
Qed.
End Endpoints.

Lemma container_eq (c c' : Container) :
  image c = image c' -> username c = username c' ->
  password c = password c' -> bucket c = bucket c' -> scope c = scope c' ->
  collection c = collection c' -> env c = env c' ->
  exposed c = exposed c' -> bindings c = bindings c' -> c = c'.
Proof. destruct c, c'; cbn; intros; by subst. Qed.

(** [__init__] as the loop over the ports, run on the container that the
    first lines of the constructor set up. *)
Lemma init_base environ img ports u p b sc co :
  __init__ environ img ports u p b sc co =
    foldl add_port
      {| image := img;
         username := py_or u
                       (environ_get environ "COUCHBASE_USERNAME" "Administrator");
         password := py_or p
                       (environ_get environ "COUCHBASE_PASSWORD" "password");
         bucket := py_or b (environ_get environ "COUCHBASE_BUCKET" "default");
         scope := py_or sc (environ_get environ "COUCHBASE_SCOPE" "default");
         collection := py_or co
                       (environ_get environ "COUCHBASE_COLLECTION" "default");
         env := ∅; exposed := ∅; bindings := ∅ |}
      (match ports with
       | None => default_ports
       | Some l => if decide (length l = 0%nat) then default_ports else l
       end).
Proof. reflexivity. Qed.

(** X9: the ports count as a set.  Two non-empty lists of ports with the
    same members, in whatever order and however often repeated, make the
    same container; and an empty list makes the same container as no list
    at all. *)
Theorem init_ports_as_set (environ : gmap string string) (img : string)
    (u p b sc co : option string) (l l' : list Z) :
  l <> [] -> l' <> [] -> (forall q : Z, q ∈ l <-> q ∈ l') ->
  __init__ environ img (Some l) u p b sc co =
    __init__ environ img (Some l') u p b sc co /\
  __init__ environ img (Some []) u p b sc co =
    __init__ environ img None u p b sc co.
Proof.
  intros Hl Hl' Hmem. split; [|done].
  rewrite !init_base.
  destruct l as [|x l]; [done|]. destruct l' as [|x' l']; [done|].
  cbn [length]. rewrite !decide_False by done.
  set (c0 := {| image := img; env := ∅ |}).
  destruct (add_ports_config (x :: l) c0)
    as (Hi1 & Hu1 & Hp1 & Hb1 & Hs1 & Hc1 & He1).
  destruct (add_ports_config (x' :: l') c0)
    as (Hi2 & Hu2 & Hp2 & Hb2 & Hs2 & Hc2 & He2).
  apply container_eq; try congruence.
  - rewrite !add_ports_exposed. f_equal.
    apply set_eq. intros q. rewrite !elem_of_list_to_set. apply Hmem.
  - apply map_eq. intros q. rewrite !add_ports_bindings.
    destruct (decide (q ∈ x :: l)) as [Hin|Hin];
      destruct (decide (q ∈ x' :: l')) as [Hin'|Hin']; try done.
    + by apply Hmem in Hin.
    + by apply Hmem in Hin'.
Qed.

(** A port given twice, and the ports in another order. *)
Lemma init_ports_as_set_witness :
  __init__ ∅ "couchbase:latest" (Some [8091; 8091; 11210]) None None None None None =
    __init__ ∅ "couchbase:latest" (Some [11210; 8091]) None None None None None /\
  __init__ ∅ "couchbase:latest" (Some []) None None None None None =
    __init__ ∅ "couchbase:latest" None None None None None None.
Proof.
  apply init_ports_as_set; [done|done|].
  intros q. rewrite !elem_of_cons, !elem_of_nil. tauto.
Defined.
